(** * Anomaly-scoring engine: predictor, process adapter and training pipeline

    Shallow embedding of
      - [src/ml-models/model_predictor.py]     (module [ModelPredictor])
      - [src/ml-models/predictor_interface.py] (module [PredictorInterface])
      - [src/ml-models/train_model.py]         (module [TrainModel])
    together with the small part of NumPy / scikit-learn the three files
    call ([PyFloat], [Numpy], [Sklearn]).

    Numbers.  A Python / NumPy [float64] is modelled by [float]: an exact
    rational, or one of the three IEEE special values.  Finite arithmetic
    is exact (no rounding, no overflow); every finite result is stored in
    lowest terms, so that numerically equal finite results are equal terms. *)

From Stdlib Require Import QArith Qpower Qround Qminmax Qabs Lqa Lia ZArith List Bool Ascii.
From Stdlib Require Import Sorting.Mergesort Sorting.Sorted Sorting.Permutation Orders.
From stdpp Require Import gmap strings.

(** ** Python floats *)

Module PyFloat.
Local Open Scope Q_scope.

Inductive float : Type :=
| Fin (q : Q)
| PInf
| NInf
| NaN.

Definition is_nan (x : float) : bool :=
  match x with NaN => true | _ => false end.

Definition is_inf (x : float) : bool :=
  match x with PInf | NInf => true | _ => false end.

Definition is_finite (x : float) : bool :=
  match x with Fin _ => true | _ => false end.

(** [Qltb a b] decides [a < b] on rationals. *)
Definition Qltb (a b : Q) : bool := negb (Qle_bool b a).

Definition fneg (x : float) : float :=
  match x with
  | Fin q => Fin (Qred (- q))
  | PInf => NInf
  | NInf => PInf
  | NaN => NaN
  end.

Definition fadd (x y : float) : float :=
  match x, y with
  | NaN, _ | _, NaN => NaN
  | PInf, NInf | NInf, PInf => NaN
  | PInf, _ | _, PInf => PInf
  | NInf, _ | _, NInf => NInf
  | Fin a, Fin b => Fin (Qred (a + b))
  end.

Definition fsub (x y : float) : float :=
  match x, y with
  | NaN, _ | _, NaN => NaN
  | PInf, PInf | NInf, NInf => NaN
  | PInf, _ | _, NInf => PInf
  | NInf, _ | _, PInf => NInf
  | Fin a, Fin b => Fin (Qred (a - b))
  end.

(** Sign of an infinity scaled by a finite factor: [inf * 0] is NaN. *)
Definition inf_times (pos : bool) (q : Q) : float :=
  if Qeq_bool q 0 then NaN
  else if Bool.eqb pos (Qltb 0 q) then PInf else NInf.

Definition fmul (x y : float) : float :=
  match x, y with
  | NaN, _ | _, NaN => NaN
  | PInf, PInf | NInf, NInf => PInf
  | PInf, NInf | NInf, PInf => NInf
  | PInf, Fin q | Fin q, PInf => inf_times true q
  | NInf, Fin q | Fin q, NInf => inf_times false q
  | Fin a, Fin b => Fin (Qred (a * b))
  end.

(** NumPy division: a zero divisor gives an infinity or NaN (with a
    warning), never an exception. *)
Definition fdiv (x y : float) : float :=
  match x, y with
  | NaN, _ | _, NaN => NaN
  | (PInf | NInf), (PInf | NInf) => NaN
  | Fin _, (PInf | NInf) => Fin 0
  | PInf, Fin q => if Qltb q 0 then NInf else PInf
  | NInf, Fin q => if Qltb q 0 then PInf else NInf
  | Fin a, Fin b =>
      if Qeq_bool b 0 then
        (if Qeq_bool a 0 then NaN else if Qltb 0 a then PInf else NInf)
      else Fin (Qred (a / b))
  end.

(** [x < y]; every comparison with NaN is false. *)
Definition fltb (x y : float) : bool :=
  match x, y with
  | NaN, _ | _, NaN => false
  | _, NInf => false
  | PInf, _ => false
  | NInf, _ => true
  | _, PInf => true
  | Fin a, Fin b => Qltb a b
  end.

(** [x > y] *)
Definition fgtb (x y : float) : bool := fltb y x.


(** [x == y] *)
Definition feqb (x y : float) : bool :=
  match x, y with
  | PInf, PInf | NInf, NInf => true
  | Fin a, Fin b => Qeq_bool a b
  | _, _ => false
  end.

(** Python's builtin [min(a, b)]: the first argument unless the second is
    strictly smaller; so [min(nan, 1.0)] is [nan]. *)
Definition py_min (a b : float) : float :=
  if fltb b a then b else a.


(** The rationals that are values of finite binary64 numbers:
    [m * 2^e] with [|m| < 2^53] and [-1074 <= e <= 971]. *)
Definition binary64 (q : Q) : Prop :=
  exists m e : Z,
    (Z.abs m < 2 ^ 53)%Z /\ (-1074 <= e <= 971)%Z /\
    q == inject_Z m * Qpower 2 e.

(** [float(n)] for a list length. *)
Definition of_nat (n : nat) : float := Fin (inject_Z (Z.of_nat n)).

End PyFloat.

Import PyFloat.

(** ** Python values, exceptions *)

(** A value decoded by [json.loads].  Objects are Python dicts with string
    keys. *)
#[warnings="-register-all"]
Inductive json : Type :=
| JNull
| JBool (b : bool)
| JNum (x : float)
| JStr (s : string)
| JArr (l : list json)
| JObj (d : gmap string json).

(** The exception classes that occur in the three files; the argument is
    what [str(e)] returns. *)
Inductive exn : Type :=
| ValueError (msg : string)
| KeyError (msg : string)
| TypeError (msg : string)
| AttributeError (msg : string)
| UnboundLocalError (msg : string)
| OtherError (msg : string).

Definition str_exn (e : exn) : string :=
  match e with
  | ValueError m | KeyError m | TypeError m | AttributeError m
  | UnboundLocalError m | OtherError m => m
  end.

(** A computation that returns or raises. *)
Inductive result (A : Type) : Type :=
| Ok (a : A)
| Raise (e : exn).
Arguments Ok {A} a.
Arguments Raise {A} e.

(** Sequencing: [x ← m; k] runs [k] unless [m] raised. *)
#[global] Instance result_bind : MBind result :=
  fun A B (k : A -> result B) (m : result A) =>
    match m with
    | Ok a => k a
    | Raise e => Raise e
    end.

Definition is_ok {A : Type} (m : result A) : bool :=
  match m with Ok _ => true | Raise _ => false end.

(** [d[k]] on a dict: [KeyError] when the key is absent. *)
Definition getitem (d : gmap string json) (k : string) : result json :=
  match d !! k with
  | Some v => Ok v
  | None => Raise (KeyError ("'" +:+ k +:+ "'"))
  end.

(** ** NumPy rows of five features *)

Module Numpy.

(** One row of the [n x 5] feature array, columns in the order of the
    source: vibration, temperature, pressure, flow rate, rotational speed. *)
Record vec5 : Type := V5 {
  vibration : float;
  temperature : float;
  pressure : float;
  flow_rate : float;
  rotational_speed : float
}.

Definition to_list (v : vec5) : list float :=
  [vibration v; temperature v; pressure v; flow_rate v; rotational_speed v].

Definition map1 (f : float -> float) (v : vec5) : vec5 :=
  V5 (f (vibration v)) (f (temperature v)) (f (pressure v))
     (f (flow_rate v)) (f (rotational_speed v)).

Definition map2 (f : float -> float -> float) (u v : vec5) : vec5 :=
  V5 (f (vibration u) (vibration v)) (f (temperature u) (temperature v))
     (f (pressure u) (pressure v)) (f (flow_rate u) (flow_rate v))
     (f (rotational_speed u) (rotational_speed v)).

Definition const (x : float) : vec5 := V5 x x x x x.

(** A row of finite values. *)
Definition fin5 (a b c d e : Q) : vec5 := V5 (Fin a) (Fin b) (Fin c) (Fin d) (Fin e).

(** [u - v], [u * v], [u + v], [u / v] elementwise *)
Definition sub := map2 fsub.
Definition mul := map2 fmul.
Definition add := map2 fadd.
Definition div := map2 fdiv.

(** [np.power(v, 2)] *)
Definition power2 (v : vec5) : vec5 := map1 (fun x => fmul x x) v.

Definition sum (l : list float) : float := fold_left fadd l (Fin 0%Q).

(** [np.mean(v)] over all entries of the one-row array *)
Definition mean (v : vec5) : float :=
  fdiv (sum (to_list v)) (of_nat (length (to_list v))).

(** The [j]-th column of an array of rows. *)
Definition column (proj : vec5 -> float) (X : list vec5) : list float :=
  List.map proj X.

Definition nan_min2 (a b : float) : float :=
  match a, b with
  | NaN, y => y
  | x, NaN => x
  | x, y => if fltb y x then y else x
  end.

Definition nan_max2 (a b : float) : float :=
  match a, b with
  | NaN, y => y
  | x, NaN => x
  | x, y => if fltb x y then y else x
  end.

(** [np.nanmin] / [np.nanmax] of a column: NaN entries are skipped, a column
    of NaNs gives NaN. *)
Definition nanmin (l : list float) : float := fold_left nan_min2 l NaN.
Definition nanmax (l : list float) : float := fold_left nan_max2 l NaN.

Definition nanmin_axis0 (X : list vec5) : vec5 :=
  V5 (nanmin (column vibration X)) (nanmin (column temperature X))
     (nanmin (column pressure X)) (nanmin (column flow_rate X))
     (nanmin (column rotational_speed X)).

(** Some entry of the row is NaN. *)
Definition any_nan (v : vec5) : bool := existsb is_nan (to_list v).

(** A column without infinities. *)
Definition no_inf (l : list float) : Prop := forall x, In x l -> is_inf x = false.

(** The five column projections, in the order of the source. *)
Definition columns : list (vec5 -> float) :=
  [vibration; temperature; pressure; flow_rate; rotational_speed].

Definition nanmax_axis0 (X : list vec5) : vec5 :=
  V5 (nanmax (column vibration X)) (nanmax (column temperature X))
     (nanmax (column pressure X)) (nanmax (column flow_rate X))
     (nanmax (column rotational_speed X)).

End Numpy.

(** ** scikit-learn's [MinMaxScaler] (feature range (0, 1), no clipping) *)

Module Sklearn.
Import Numpy.

(** The fitted attributes of a [MinMaxScaler]. *)
Record MinMaxScaler : Type := {
  data_min_ : vec5;
  data_max_ : vec5;
  scale_ : vec5;
  min_ : vec5
}.

(** Input validation with [ensure_all_finite="allow-nan"]: NaN passes,
    an infinity is rejected. *)
Definition has_inf (v : vec5) : bool := existsb is_inf (to_list v).

Definition check_array (X : list vec5) : result (list vec5) :=
  if existsb has_inf X
  then Raise (ValueError "Input X contains infinity or a value too large for dtype('float64').")
  else match X with
       | [] => Raise (ValueError "Found array with 0 sample(s) while a minimum of 1 is required by MinMaxScaler.")
       | _ => Ok X
       end.

(** [10 * np.finfo(np.float64).eps], with [eps = 2^-52]. *)
Definition ten_eps : Q := 10 # 4503599627370496.

(** [scale[scale < 10 * eps] = 1.0]: a column that is constant, up to
    rounding, gets the scale 1.  (A NaN range, of a column of NaNs, compares
    false and is kept.) *)
Definition handle_zeros_in_scale (r : float) : float :=
  if fltb r (Fin ten_eps) then Fin 1%Q else r.

Definition fit (X : list vec5) : result MinMaxScaler :=
  X ← check_array X;
  let data_min := nanmin_axis0 X in
  let data_max := nanmax_axis0 X in
  let data_range := sub data_max data_min in
  let scale := div (const (Fin 1%Q)) (map1 handle_zeros_in_scale data_range) in
  Ok {| data_min_ := data_min;
        data_max_ := data_max;
        scale_ := scale;
        min_ := sub (const (Fin 0%Q)) (mul data_min scale) |}.

(** [X *= scale_; X += min_] on one row. *)
Definition scale_row (s : MinMaxScaler) (x : vec5) : vec5 :=
  add (mul x (scale_ s)) (min_ s).

Definition transform (s : MinMaxScaler) (X : list vec5) : result (list vec5) :=
  X ← check_array X;
  Ok (List.map (scale_row s) X).

(** [transform] on the one-row array the predictor builds. *)
Definition transform_row (s : MinMaxScaler) (x : vec5) : result vec5 :=
  if has_inf x
  then Raise (ValueError "Input X contains infinity or a value too large for dtype('float64').")
  else Ok (scale_row s x).

Definition fit_transform (X : list vec5) : result (MinMaxScaler * list vec5) :=
  s ← fit X;
  Xs ← transform s X;
  Ok (s, Xs).

End Sklearn.

(** ** A trained Keras model *)

Module Keras.
Import Numpy.

(** [model.predict] on the one-row batch the predictor passes: a
    deterministic forward pass from five inputs to five outputs. *)
Record Model : Type := { predict : vec5 -> vec5 }.

End Keras.

(** [str.lower()] on ASCII letters *)
Definition lower_ascii (c : ascii) : ascii :=
  let n := nat_of_ascii c in
  if (65 <=? n)%nat && (n <=? 90)%nat then ascii_of_nat (n + 32) else c.

Fixpoint lower (s : string) : string :=
  match s with
  | EmptyString => EmptyString
  | String c s' => String (lower_ascii c) (lower s')
  end.

(** ** model_predictor.py *)

Module ModelPredictor.
Import Numpy Sklearn.

(** What the loader sees of the artifact directory: [os.path.exists],
    [tf.keras.models.load_model] and [joblib.load]. *)
Record FileSystem : Type := {
  path_exists : string -> bool;
  load_model : string -> result Keras.Model;
  joblib_load : string -> result MinMaxScaler
}.

(** The two dicts of a [ModelPredictor] instance. *)
Record ModelPredictor : Type := {
  models : gmap string Keras.Model;
  scalers : gmap string MinMaxScaler
}.

Definition machine_types : list string := ["Pump"; "Compressor"; "Motor"; "Valve"].

Definition model_filename (machine_type : string) : string :=
  "../ml-models/" +:+ lower machine_type +:+ "_model.h5".

Definition scaler_filename (machine_type : string) : string :=
  "../ml-models/" +:+ lower machine_type +:+ "_scaler.pkl".

(** The body of the [try] in [load_models] for one machine type. *)
Definition load_attempt (fs : FileSystem) (self : ModelPredictor)
    (machine_type : string) : result ModelPredictor :=
  if path_exists fs (model_filename machine_type)
     && path_exists fs (scaler_filename machine_type)
  then
    model ← load_model fs (model_filename machine_type);
    scaler ← joblib_load fs (scaler_filename machine_type);
    Ok {| models := <[machine_type := model]> (models self);
          scalers := <[machine_type := scaler]> (scalers self) |}
  else Ok self.

(** One iteration of the loop: an exception is logged and the instance is
    left as it was. *)
Definition load_step (fs : FileSystem) (self : ModelPredictor)
    (machine_type : string) : ModelPredictor :=
  match load_attempt fs self machine_type with
  | Ok self' => self'
  | Raise _ => self
  end.

Definition load_models_from (fs : FileSystem) (self : ModelPredictor) : ModelPredictor :=
  fold_left (load_step fs) machine_types self.

(** [ModelPredictor()]: [__init__] followed by [load_models]. *)
Definition init (fs : FileSystem) : ModelPredictor :=
  load_models_from fs {| models := ∅; scalers := ∅ |}.

(** [list(self.models.keys())], as a set of keys. *)
Definition get_machine_types (self : ModelPredictor) : gset string :=
  dom (models self).

(** The record returned by [predict_anomaly]. *)
Record PredictionResult : Type := {
  timestamp : json;
  machineId : json;
  machineType : string;
  anomalyProbability : float;
  isAnomaly : bool;
  mse : float;
  confidence : float;
  recommendedAction : string
}.

(** The value of the binary64 literal [0.01]: the double nearest to 1/100,
    [5764607523034235 * 2^-59] (bits [0x3F847AE147AE147B]). *)
Definition threshold_value : Q := 5764607523034235 # 576460752303423488.

Definition threshold : float := Fin threshold_value.

Section Predict.

(** Conversion of a JSON value that is not a number to [float64], as done
    by [np.array] and the scaler's input validation. *)
Variable float64_of_other : json -> result float.

Definition float64 (v : json) : result float :=
  match v with
  | JNum x => Ok x
  | other => float64_of_other other
  end.

Definition preprocess_data (self : ModelPredictor) (data : gmap string json)
    (machine_type : string) : result vec5 :=
  match scalers self !! machine_type with
  | None => Raise (ValueError ("No scaler found for machine type: " +:+ machine_type))
  | Some scaler =>
      v1 ← getitem data "vibration";
      v2 ← getitem data "temperature";
      v3 ← getitem data "pressure";
      v4 ← getitem data "flowRate";
      v5 ← getitem data "rotationalSpeed";
      x1 ← float64 v1;
      x2 ← float64 v2;
      x3 ← float64 v3;
      x4 ← float64 v4;
      x5 ← float64 v5;
      transform_row scaler (V5 x1 x2 x3 x4 x5)
  end.

Definition predict_anomaly (self : ModelPredictor) (data : gmap string json)
    (machine_type : string) : result PredictionResult :=
  match models self !! machine_type with
  | None => Raise (ValueError ("No model found for machine type: " +:+ machine_type))
  | Some model =>
      features_scaled ← preprocess_data self data machine_type;
      let prediction := Keras.predict model features_scaled in
      let mse := mean (power2 (sub features_scaled prediction)) in
      let is_anomaly := fgtb mse threshold in
      let anomaly_probability := py_min (fdiv mse (fmul threshold (Fin 2%Q))) (Fin 1%Q) in
      ts ← getitem data "timestamp";
      mid ← getitem data "machineId";
      Ok {| timestamp := ts;
            machineId := mid;
            machineType := machine_type;
            anomalyProbability := anomaly_probability;
            isAnomaly := is_anomaly;
            mse := mse;
            confidence := fsub (Fin 1%Q) anomaly_probability;
            recommendedAction :=
              if is_anomaly then "Inspect immediately" else "No action required" |}
  end.

End Predict.

End ModelPredictor.

(** ** predictor_interface.py *)

Module PredictorInterface.
Import ModelPredictor.

(** What the invoking process observes: the lines printed on standard
    output (each a JSON document), the exit status, and the exception that
    ended the interpreter with a traceback, if any. *)
Record Process : Type := {
  stdout : list json;
  exit_code : Z;
  uncaught : option exn
}.

Definition required_fields : list string :=
  ["timestamp"; "vibration"; "temperature"; "pressure";
   "flowRate"; "rotationalSpeed"; "machineType"; "machineId"].

(** [json.dumps(result)] for the dict built by [predict_anomaly]. *)
Definition result_json (r : PredictionResult) : json :=
  JObj (list_to_map
    [("timestamp", timestamp r);
     ("machineId", machineId r);
     ("machineType", JStr (machineType r));
     ("anomalyProbability", JNum (anomalyProbability r));
     ("isAnomaly", JBool (isAnomaly r));
     ("mse", JNum (mse r));
     ("predictionDetails", JObj (list_to_map
        [("confidence", JNum (confidence r));
         ("recommendedAction", JStr (recommendedAction r))]))]).

(** [data.get(key, '')] *)
Definition dict_get (d : gmap string json) (key : string) : json :=
  default (JStr "") (d !! key).

(** The [error_result] dict of the handler. *)
Definition error_result (e : exn) (d : gmap string json) : json :=
  JObj (list_to_map
    [("error", JStr (str_exn e));
     ("timestamp", dict_get d "timestamp");
     ("machineId", dict_get d "machineId");
     ("machineType", dict_get d "machineType");
     ("anomalyProbability", JNum (Fin 0%Q));
     ("isAnomaly", JBool false);
     ("predictionDetails", JObj (list_to_map
        [("confidence", JNum (Fin 0%Q));
         ("recommendedAction", JStr "Error occurred during prediction")]))]).

(** [x == field] for a list element [x] and a string [field] *)
Definition json_is_str (field : string) (x : json) : bool :=
  match x with
  | JStr s => String.eqb s field
  | _ => false
  end.

(** [field in data]: key test on a dict, element test on a list, substring
    test on a string; the other values are not iterable. *)
Definition contains (data : json) (field : string) : result bool :=
  match data with
  | JObj d => Ok (bool_decide (is_Some (d !! field)))
  | JArr l => Ok (existsb (json_is_str field) l)
  | JStr s => Ok (bool_decide (is_Some (String.index 0 field s)))
  | JNull => Raise (TypeError "argument of type 'NoneType' is not iterable")
  | JBool _ => Raise (TypeError "argument of type 'bool' is not iterable")
  | JNum _ => Raise (TypeError "argument of type 'float' is not iterable")
  end.

(** The validation loop over [required_fields]. *)
Fixpoint validate (data : json) (fields : list string) : result unit :=
  match fields with
  | [] => Ok tt
  | field :: rest =>
      present ← contains data field;
      if (present : bool) then validate data rest
      else Raise (ValueError ("Missing required field: " +:+ field))
  end.

Section Main.

Variable float64_of_other : json -> result float.
(** [json.loads] *)
Variable json_loads : string -> result json.
(** [str(v)] as used when a machine type is formatted into a message *)
Variable py_str : json -> string.
(** The global [predictor] instance created when the module is imported *)
Variable predictor : ModelPredictor.

(** [predictor.predict_anomaly(data, data['machineType'])] *)
Definition run_prediction (data : json) : result PredictionResult :=
  match data with
  | JObj d =>
      machine_type ← getitem d "machineType";
      match machine_type with
      | JStr s => predict_anomaly float64_of_other predictor d s
      | JArr _ => Raise (TypeError "unhashable type: 'list'")
      | JObj _ => Raise (TypeError "unhashable type: 'dict'")
      | other =>
          Raise (ValueError ("No model found for machine type: " +:+ py_str other))
      end
  | JArr _ => Raise (TypeError "list indices must be integers or slices, not str")
  | JStr _ => Raise (TypeError "string indices must be integers, not 'str'")
  | _ => Raise (TypeError "object is not subscriptable")
  end.

(** Lines 34-45: validation, prediction, serialisation of the result. *)
Definition validate_and_predict (data : json) : result json :=
  validate data required_fields ≫= λ _,
  r ← run_prediction data;
  Ok (result_json r).

(** The [try] block.  The first component is the binding of the local
    variable [data] when the block is left: [None] while [data] has not
    been assigned.  The second is the printed document, or the exception. *)
Definition try_block (input_data : string) : option json * result json :=
  if String.eqb input_data ""
  then (None, Raise (ValueError "No input data received"))
  else
    match json_loads input_data with
    | Raise e => (None, Raise e)
    | Ok data =>
        (Some data, validate_and_predict data)
    end.

(** The interpreter ends with a traceback: nothing is printed on standard
    output and the exit status is 1. *)
Definition crashed (e : exn) : Process :=
  {| stdout := []; exit_code := 1; uncaught := Some e |}.

(** [data.get] evaluated while the local [data] is unassigned. *)
Definition crashed_unbound : Process :=
  crashed (UnboundLocalError
    "cannot access local variable 'data' where it is not associated with a value").

(** [data.get] evaluated on a decoded value that is not a dict.  The message
    is kept without its leading type name (['list'], ['int'], ...), which
    depends on the decoded value. *)
Definition crashed_no_get : Process :=
  crashed (AttributeError "object has no attribute 'get'").

(** The [except Exception as e] handler: it reads the local [data]; after
    printing the error document it calls [sys.exit(1)]. *)
Definition handler (data : option json) (e : exn) : Process :=
  match data with
  | None => crashed_unbound
  | Some (JObj d) =>
      {| stdout := [error_result e d]; exit_code := 1; uncaught := None |}
  | Some _ => crashed_no_get
  end.

Definition main (input_data : string) : Process :=
  match try_block input_data with
  | (_, Ok doc) => {| stdout := [doc]; exit_code := 0; uncaught := None |}
  | (data, Raise e) => handler data e
  end.

End Main.

End PredictorInterface.

(** ** train_model.py *)

Module TrainModel.
Import Numpy Sklearn.

(** A row of the [sensor_data] table, with the columns the training query
    reads or filters on. *)
Record SensorData : Type := {
  sd_timestamp : Z;
  sd_features : vec5;
  sd_machine_type : string
}.

(** A row of the data frame returned by the query. *)
Record Row : Type := {
  timestamp : Z;
  features : vec5
}.

Definition select (r : SensorData) : Row :=
  {| timestamp := sd_timestamp r; features := sd_features r |}.

(** Rows compared by their timestamp. *)
Module TimestampOrder <: TotalLeBool.
Definition t : Type := Row.
Definition leb (a b : Row) : bool := (timestamp a <=? timestamp b)%Z.
Lemma leb_total (a b : Row) : leb a b = true \/ leb b a = true.
Proof.
  unfold leb.
  destruct (Z.leb_spec (timestamp a) (timestamp b)); [left | right]; [done | lia].
Qed.
End TimestampOrder.

Module ByTimestamp := Sort TimestampOrder.

(** [df.sort_values('timestamp')]: ascending *)
Definition sort_values (df : list Row) : list Row := ByTimestamp.sort df.

(** [ORDER BY timestamp DESC] *)
Definition order_by_timestamp_desc (rows : list Row) : list Row :=
  rev (ByTimestamp.sort rows).

(** The SELECT of [load_data_from_db]. *)
Definition query (table : list SensorData) (machine_type : string) (limit : nat) : list Row :=
  firstn limit
    (order_by_timestamp_desc
       (List.map select
          (List.filter (fun r => String.eqb (sd_machine_type r) machine_type) table))).

(** The default of the parameter [limit=10000]. *)
Definition default_limit : nat := Z.to_nat 10000.

(** [db] is [None] when [connect_to_db] fails. *)
Definition load_data_from_db (db : option (list SensorData)) (machine_type : string)
    (limit : nat) : option (list Row) :=
  match db with
  | None => None
  | Some table => Some (sort_values (query table machine_type limit))
  end.

(** Returns [(X, y, scaler)]. *)
Definition prepare_data (data : list Row)
    : result (list vec5 * list vec5 * MinMaxScaler) :=
  let features := List.map features data in
  '(scaler, features_scaled) ← fit_transform features;
  Ok (features_scaled, features_scaled, scaler).

(** [int(0.8 * n)] *)
Definition split_idx (n : nat) : nat :=
  Z.to_nat (Qfloor ((8 # 10) * inject_Z (Z.of_nat n))).

(** The dict returned by [train_model_for_machine_type]. *)
Record TrainResult : Type := {
  model : Keras.Model;
  scaler : MinMaxScaler;
  train_loss : float;
  test_loss : float;
  model_filename : string;
  scaler_filename : string
}.

Definition machine_types : list string := ["Pump"; "Compressor"; "Motor"; "Valve"].

Section Training.

(** [build_dnn_model] followed by [model.fit(X_train, y_train,
    validation_data=(X_test, y_test))]: the trained model, or the
    exception training ended with. *)
Variable keras_fit :
  list vec5 -> list vec5 -> list vec5 -> list vec5 -> result Keras.Model.
(** [model.evaluate(X, y)] *)
Variable keras_evaluate : Keras.Model -> list vec5 -> list vec5 -> float.

(** Lines 120-165 of [train_model_for_machine_type]: the second size guard,
    the split, training, evaluation and the returned dict.  [None] is the
    function's "Not enough data" return. *)
Definition train_prepared (machine_type : string) (X y : list vec5)
    (scaler : MinMaxScaler) : result (option TrainResult) :=
  if (length X <? 10)%nat then Ok None
  else
    let split_idx := split_idx (length X) in
    let X_train := firstn split_idx X in
    let X_test := skipn split_idx X in
    let y_train := firstn split_idx y in
    let y_test := skipn split_idx y in
    model ← keras_fit X_train y_train X_test y_test;
    Ok (Some {| model := model;
                scaler := scaler;
                train_loss := keras_evaluate model X_train y_train;
                test_loss := keras_evaluate model X_test y_test;
                model_filename := lower machine_type +:+ "_model.h5";
                scaler_filename := lower machine_type +:+ "_scaler.pkl" |}).

Definition train_model_for_machine_type (db : option (list SensorData))
    (machine_type : string) : result (option TrainResult) :=
  match load_data_from_db db machine_type default_limit with
  | None => Ok None
  | Some df =>
      if (length df <? 100)%nat then Ok None
      else
        '(X, y, scaler) ← prepare_data df;
        train_prepared machine_type X y scaler
  end.

(** One iteration of the loop of [main]: an exception or a [None] result
    is logged and the dict is left as it was. *)
Definition main_step (db : option (list SensorData))
    (trained_models : gmap string TrainResult) (machine_type : string)
    : gmap string TrainResult :=
  match train_model_for_machine_type db machine_type with
  | Ok (Some result) => <[machine_type := result]> trained_models
  | Ok None => trained_models
  | Raise _ => trained_models
  end.

(** [main] returns [trained_models]. *)
Definition main (db : option (list SensorData)) : gmap string TrainResult :=
  fold_left (main_step db) machine_types ∅.

End Training.

End TrainModel.

(** ** Scenario data

    The registries, readings and tables used by the end-to-end scenarios. *)

Module Scenarios.
Import Numpy Sklearn ModelPredictor.

(** A scaler fitted on data spanning [0, 1] in every column: the identity. *)
Definition identity_scaler : MinMaxScaler :=
  {| data_min_ := const (Fin 0%Q);
     data_max_ := const (Fin 1%Q);
     scale_ := const (Fin 1%Q);
     min_ := const (Fin 0%Q) |}.

Definition identity_model : Keras.Model := {| Keras.predict := fun v => v |}.

(** A reconstruction that is off by [c] in every dimension. *)
Definition offset_model (c : Q) : Keras.Model :=
  {| Keras.predict := map1 (fun x => fadd x (Fin c)) |}.

(** A reconstruction that is zero in every dimension. *)
Definition zero_model : Keras.Model :=
  {| Keras.predict := fun _ => const (Fin 0%Q) |}.

(** A registry serving only ["Pump"], with the identity scaler. *)
Definition pump_registry (m : Keras.Model) : ModelPredictor :=
  {| models := {[ "Pump" := m ]};
     scalers := {[ "Pump" := identity_scaler ]} |}.

Definition reading (x1 x2 x3 x4 x5 : float) : gmap string json :=
  list_to_map
    [("timestamp", JStr "2023-01-01T00:00:00Z");
     ("vibration", JNum x1);
     ("temperature", JNum x2);
     ("pressure", JNum x3);
     ("flowRate", JNum x4);
     ("rotationalSpeed", JNum x5);
     ("machineType", JStr "Pump");
     ("machineId", JStr "M001")].

(** A reading of five binary64 values, multiples of [2^-30], whose squares
    sum to [28823037615171175 * 2^-59], five times the literal [0.01]. *)
Definition boundary_reading : gmap string json :=
  reading (Fin (176867987 # 1073741824)%Q)
          (Fin (121339297 # 1073741824)%Q)
          (Fin (107891448 # 1073741824)%Q)
          (Fin (24528 # 1073741824)%Q)
          (Fin (15978 # 1073741824)%Q).

(** The reading of the spec's end-to-end scenarios. *)
Definition scenario_reading : gmap string json :=
  reading (Fin 1%Q) (Fin 50%Q) (Fin 5%Q) (Fin 20%Q) (Fin 3000%Q).

(** An artifact directory in which the two files of ["Valve"] are absent
    and every other file loads. *)
Definition three_of_four : FileSystem :=
  {| path_exists := fun f =>
       negb (String.eqb f "../ml-models/valve_model.h5"
             || String.eqb f "../ml-models/valve_scaler.pkl");
     load_model := fun _ => Ok identity_model;
     joblib_load := fun _ => Ok identity_scaler |}.

(** The scenario reading with a NaN vibration. *)
Definition nan_reading : gmap string json :=
  reading NaN (Fin 50%Q) (Fin 5%Q) (Fin 20%Q) (Fin 3000%Q).

(** JSON text written with ['] for the double quote. *)
Fixpoint dquote (s : string) : string :=
  match s with
  | EmptyString => EmptyString
  | String c s' =>
      String (if Ascii.eqb c "'" then ascii_of_nat 34 else c) (dquote s')
  end.

Definition nan_reading_text : string :=
  dquote ("{'timestamp': '2023-01-01T00:00:00Z', 'vibration': NaN, "
          +:+ "'temperature': 50.0, 'pressure': 5.0, 'flowRate': 20.0, "
          +:+ "'rotationalSpeed': 3000.0, 'machineType': 'Pump', 'machineId': 'M001'}").

(** A decoder that knows the text of [nan_reading] only. *)
Definition decode_nan_reading (text : string) : result json :=
  if String.eqb text nan_reading_text then Ok (JObj nan_reading)
  else Raise (ValueError "Expecting value: line 1 column 1 (char 0)").

(** The scenario reading without its pressure, and its text. *)
Definition no_pressure_reading : gmap string json :=
  delete "pressure" scenario_reading.

Definition no_pressure_text : string :=
  dquote ("{'timestamp': '2023-01-01T00:00:00Z', 'vibration': 1.0, "
          +:+ "'temperature': 50.0, 'flowRate': 20.0, "
          +:+ "'rotationalSpeed': 3000.0, 'machineType': 'Pump', 'machineId': 'M001'}").

Definition decode_no_pressure (text : string) : result json :=
  if String.eqb text no_pressure_text then Ok (JObj no_pressure_reading)
  else Raise (ValueError "Expecting value: line 1 column 1 (char 0)").

(** The scenario reading with an infinite temperature. *)
Definition inf_reading : gmap string json :=
  reading (Fin 1%Q) PInf (Fin 5%Q) (Fin 20%Q) (Fin 3000%Q).

(** [str] of a value, used only in messages. *)
Definition str_placeholder (v : json) : string :=
  match v with
  | JStr s => s
  | JNull => "None"
  | JBool true => "True"
  | JBool false => "False"
  | _ => "<value>"
  end.

(** A conversion that rejects every value that is not a number. *)
Definition reject_other (v : json) : result float :=
  Raise (TypeError "float() argument must be a string or a real number").

End Scenarios.

(** ** Chronological order *)

Module Chronology.
Import TrainModel.

(** Timestamps never decrease along the list. *)
Definition ascending (l : list Row) : Prop :=
  StronglySorted (fun a b => (timestamp a <= timestamp b)%Z) l.

(** Timestamps never increase along the list. *)
Definition descending (l : list Row) : Prop :=
  StronglySorted (fun a b => (timestamp b <= timestamp a)%Z) l.

(** The rows of a machine type, as the query selects them. *)
Definition rows_of (table : list SensorData) (machine_type : string) : list Row :=
  List.map select
    (List.filter (fun r => String.eqb (sd_machine_type r) machine_type) table).

End Chronology.

(** The five measurement keys of a reading. *)
Definition measurement_keys : list string :=
  ["vibration"; "temperature"; "pressure"; "flowRate"; "rotationalSpeed"].

(** ** Artifact pairs *)

Module Registry.
Import ModelPredictor.

(** The artifact pair of a machine type loads: both files exist and both
    loaders return. *)
Definition pair_loads (fs : FileSystem) (machine_type : string) : bool :=
  path_exists fs (model_filename machine_type)
  && path_exists fs (scaler_filename machine_type)
  && is_ok (load_model fs (model_filename machine_type))
  && is_ok (joblib_load fs (scaler_filename machine_type)).

(** The machine types whose artifact pair loads. *)
Definition loadable (fs : FileSystem) : gset string :=
  list_to_set (List.filter (pair_loads fs) machine_types).

(** A registry that holds one entry only. *)
Definition single (machine_type : string) (m : Keras.Model) (s : Sklearn.MinMaxScaler)
    : ModelPredictor :=
  {| models := {[ machine_type := m ]}; scalers := {[ machine_type := s ]} |}.

End Registry.

(** ** The reconstruction error in the spec's words *)

(** Spec 4.5 step 5: the mean over the dimensions of
    [(scaled[i] - reconstructed[i])^2], on exact rationals. *)
Definition mean_squared_difference (scaled reconstructed : list Q) : Q :=
  (fold_right Qplus 0
     (List.map (fun '(s, r) => (s - r) * (s - r)) (combine scaled reconstructed))
   / inject_Z (Z.of_nat (length scaled)))%Q.

(** ** Training scenario data *)

Module TrainingScenarios.
Import Numpy Sklearn TrainModel.

(** A row with the same value in every column. *)
Definition sensor_row (machine_type : string) (i : nat) (x : float) : SensorData :=
  {| sd_timestamp := Z.of_nat i;
     sd_features := const x;
     sd_machine_type := machine_type |}.

(** Eighty pump rows at times 0..79 whose values alternate between 0 and 1. *)
Definition early_rows : list SensorData :=
  List.map (fun i => sensor_row "Pump" i (Fin (inject_Z (Z.of_nat (i mod 2)))))
           (seq 0 80).

(** Twenty later pump rows at times 80..99, all with value [x]. *)
Definition late_rows (x : Q) : list SensorData :=
  List.map (fun i => sensor_row "Pump" i (Fin x)) (seq 80 20).

(** Two tables with the same first eighty rows. *)
Definition table_A : list SensorData := early_rows ++ late_rows (1 # 2).
Definition table_B : list SensorData := early_rows ++ late_rows 7.

(** A table in which ["Pump"] has 100 rows, ["Motor"] three, ["Valve"] 100
    rows one of which holds an infinity, and ["Compressor"] none. *)
Definition table_mixed : list SensorData :=
  List.map (fun i => sensor_row "Motor" i (Fin 1%Q)) (seq 0 3)
  ++ table_A
  ++ sensor_row "Valve" 0 PInf
     :: List.map (fun i => sensor_row "Valve" i (Fin 1%Q)) (seq 1 99).

(** A trainer that returns the identity model, and a zero loss. *)
Definition trivial_fit (X_train y_train X_test y_test : list vec5)
    : result Keras.Model :=
  Ok Scenarios.identity_model.

Definition trivial_evaluate (m : Keras.Model) (X y : list vec5) : float :=
  Fin 0%Q.

End TrainingScenarios.

(** ** model_predictor.py: persistence *)

Module Persistence.
Import ModelPredictor.

(** What the two save functions see of PostgreSQL through psycopg2: for
    each call that can fail, the exception it raises, if any.
    [conn.cursor()] and the two [close()] calls are taken not to raise. *)
Record Postgres : Type := {
  pg_connect : option exn;
  pg_execute : string -> list json -> option exn;
  pg_commit : option exn
}.

(** The effect of one call: the value returned and the rows that were
    inserted and committed, per table. *)
Record Saved : Type := {
  returned : bool;
  sensor_data : list (list json);
  prediction_results : list (list json)
}.

Definition not_saved : Saved :=
  {| returned := false; sensor_data := []; prediction_results := [] |}.

Definition raise_if (e : option exn) : result unit :=
  match e with
  | Some e => Raise e
  | None => Ok tt
  end.

(** [connect_to_db]: [true] for a connection, [false] for [None]. *)
Definition connect_to_db (pg : Postgres) : bool :=
  match pg_connect pg with
  | Some _ => false
  | None => true
  end.

(** The parameter tuple of the INSERT in [save_sensor_data_to_db]. *)
Definition sensor_params (data : gmap string json) : result (list json) :=
  v1 ← getitem data "timestamp";
  v2 ← getitem data "vibration";
  v3 ← getitem data "temperature";
  v4 ← getitem data "pressure";
  v5 ← getitem data "flowRate";
  v6 ← getitem data "rotationalSpeed";
  v7 ← getitem data "machineType";
  v8 ← getitem data "machineId";
  v9 ← getitem data "role";
  Ok [v1; v2; v3; v4; v5; v6; v7; v8; v9].

(** The [try] block of a save function: build the tuple, execute the
    INSERT, commit. *)
Definition insert_and_commit (pg : Postgres) (table : string)
    (params : result (list json)) : result (list json) :=
  row ← params;
  raise_if (pg_execute pg table row) ≫= λ _,
  raise_if (pg_commit pg) ≫= λ _,
  Ok row.

Definition save_sensor_data_to_db (pg : Postgres) (data : gmap string json) : Saved :=
  if connect_to_db pg then
    match insert_and_commit pg "sensor_data" (sensor_params data) with
    | Ok row => {| returned := true; sensor_data := [row]; prediction_results := [] |}
    | Raise _ => not_saved
    end
  else not_saved.

Section SavePrediction.

(** Whether the module runs as [__main__]: only then is the global name
    [json] bound, by the import under [if __name__ == "__main__"]. *)
Variable run_as_main : bool.
(** [json.dumps] on a decoded value *)
Variable json_dumps : json -> string.

(** The parameter tuple of the INSERT in [save_prediction_to_db]; the
    elements are evaluated from left to right, and an unbound [json] raises
    [NameError] when [json.dumps] is looked up. *)
Definition prediction_params (prediction : gmap string json) : result (list json) :=
  v1 ← getitem prediction "timestamp";
  v2 ← getitem prediction "machineId";
  v3 ← getitem prediction "machineType";
  v4 ← getitem prediction "anomalyProbability";
  v5 ← getitem prediction "isAnomaly";
  if run_as_main then
    v6 ← getitem prediction "predictionDetails";
    Ok [v1; v2; v3; v4; v5; JStr (json_dumps v6)]
  else Raise (OtherError "name 'json' is not defined").

Definition save_prediction_to_db (pg : Postgres) (prediction : gmap string json)
    : Saved :=
  if connect_to_db pg then
    match insert_and_commit pg "prediction_results" (prediction_params prediction) with
    | Ok row => {| returned := true; sensor_data := []; prediction_results := [row] |}
    | Raise _ => not_saved
    end
  else not_saved.

End SavePrediction.

(** The dict returned by [predict_anomaly], with its keys. *)
Definition result_dict (r : PredictionResult) : gmap string json :=
  list_to_map
    [("timestamp", timestamp r);
     ("machineId", machineId r);
     ("machineType", JStr (machineType r));
     ("anomalyProbability", JNum (anomalyProbability r));
     ("isAnomaly", JBool (isAnomaly r));
     ("mse", JNum (mse r));
     ("predictionDetails", JObj (list_to_map
        [("confidence", JNum (confidence r));
         ("recommendedAction", JStr (recommendedAction r))]))].

(** A database that accepts everything. *)
Definition accepting : Postgres :=
  {| pg_connect := None; pg_execute := fun _ _ => None; pg_commit := None |}.

End Persistence.

(** ** Validation in one pass *)

(** The first of [fields], in order, that is not a key of [d]. *)
Definition first_missing (d : gmap string json) (fields : list string) : option string :=
  List.find (fun field => negb (bool_decide (is_Some (d !! field)))) fields.

(** ** Adapter scenario data *)

Module AdapterScenarios.
Import ModelPredictor Scenarios.

Definition scenario_text : string :=
  dquote ("{'timestamp': '2023-01-01T00:00:00Z', 'vibration': 1.0, "
          +:+ "'temperature': 50.0, 'pressure': 5.0, 'flowRate': 20.0, "
          +:+ "'rotationalSpeed': 3000.0, 'machineType': 'Pump', 'machineId': 'M001'}").

(** A decoder that knows the text of [scenario_reading] only. *)
Definition decode_scenario (text : string) : result json :=
  if String.eqb text scenario_text then Ok (JObj scenario_reading)
  else Raise (ValueError "Expecting value: line 1 column 1 (char 0)").

(** A predictor for which no artifact was found. *)
Definition empty_registry : ModelPredictor := {| models := ∅; scalers := ∅ |}.

End AdapterScenarios.

(** * Properties *)

Import Numpy Sklearn.

(** ** Arithmetic of the float model *)

Section FloatFacts.
Local Open Scope Q_scope.

Lemma Qltb_lt (a b : Q) : Qltb a b = true <-> a < b.
Proof.
  unfold Qltb. rewrite negb_true_iff, <- not_true_iff_false, Qle_bool_iff.
  split; [apply Qnot_le_lt | apply Qlt_not_le].
Qed.

Lemma Qltb_ge (a b : Q) : Qltb a b = false <-> b <= a.
Proof.
  unfold Qltb. rewrite negb_false_iff. apply Qle_bool_iff.
Qed.

Lemma Qeq_bool_false (a b : Q) : Qeq_bool a b = false <-> ~ a == b.
Proof.
  rewrite <- not_true_iff_false, Qeq_bool_iff. tauto.
Qed.


Lemma fgtb_Fin (a b : Q) : fgtb (Fin a) (Fin b) = true <-> b < a.
Proof. unfold fgtb; simpl. apply Qltb_lt. Qed.






End FloatFacts.

(** ** The scoring function *)

Section ScoringFacts.
Local Open Scope Q_scope.
Import ModelPredictor.

(** Case analysis on the first computation of a sequence that returned. *)
Ltac bind_ok H :=
  match type of H with
  | mbind _ ?m = Ok _ =>
      let E := fresh "E" in
      destruct m eqn:E; simpl in H; [| discriminate H]
  end.


Variable float64_of_other : json -> result float.

(** What a returned [PredictionResult] is made of. *)
Lemma predict_anomaly_Ok (self : ModelPredictor) (data : gmap string json)
    (machine_type : string) (r : PredictionResult) :
  predict_anomaly float64_of_other self data machine_type = Ok r ->
  exists model features_scaled,
    models self !! machine_type = Some model /\
    preprocess_data float64_of_other self data machine_type = Ok features_scaled /\
    mse r = mean (power2 (sub features_scaled (Keras.predict model features_scaled))) /\
    isAnomaly r = fgtb (mse r) threshold /\
    anomalyProbability r = py_min (fdiv (mse r) (fmul threshold (Fin 2))) (Fin 1) /\
    confidence r = fsub (Fin 1) (anomalyProbability r) /\
    machineType r = machine_type /\
    data !! "timestamp" = Some (timestamp r) /\
    data !! "machineId" = Some (machineId r).
Proof.
  unfold predict_anomaly. intros H.
  destruct (models self !! machine_type) as [model|] eqn:Hm; [| discriminate H].
  bind_ok H. bind_ok H. bind_ok H.
  injection H as <-. simpl.
  exists model, a. unfold getitem in *.
  destruct (data !! "timestamp"); [| discriminate].
  destruct (data !! "machineId"); [| discriminate].
  repeat split; congruence.
Qed.


End ScoringFacts.

Section DecisionFacts.
Local Open Scope Q_scope.
Import ModelPredictor.

(** Line 103 as a function of [mse]. *)
Local Abbreviation prob m := (py_min (fdiv m (fmul threshold (Fin 2))) (Fin 1)).



(** The constant is a binary64 number, within half a unit in the last place
    of 1/100 (the spacing of binary64 numbers around it is [2^-59]). *)
Lemma threshold_value_nearest :
  binary64 threshold_value /\
  1 # 100 < threshold_value /\
  threshold_value - (1 # 100) < 1 # 1152921504606846976.
Proof.
  split; [| split; reflexivity].
  exists 5764607523034235%Z, (-59)%Z.
  split; [reflexivity |]. split; [lia | reflexivity].
Qed.









End DecisionFacts.

(** ** C2, C3: the decision and the probability *)

Section Decision.
Local Open Scope Q_scope.
Import ModelPredictor Scenarios.

(** C2. For every prediction that returns, [isAnomaly] is the strict
    comparison [mse > 0.01] against the fixed threshold, the binary64
    literal [0.01]: for a finite [mse] it is true exactly when [mse] exceeds
    the value of that literal, and an [mse] equal to it is classified not
    anomalous.  The literal is the binary64 number nearest to 1/100. *)
Theorem C2_strict_threshold (float64_of_other : json -> result float)
    (self : ModelPredictor) (data : gmap string json) (machine_type : string)
    (r : PredictionResult) :
  predict_anomaly float64_of_other self data machine_type = Ok r ->
  isAnomaly r = fgtb (mse r) (Fin threshold_value) /\
  (forall q, mse r = Fin q -> (isAnomaly r = true <-> threshold_value < q)) /\
  (forall q, mse r = Fin q -> q == threshold_value -> isAnomaly r = false) /\
  (binary64 threshold_value /\
   1 # 100 < threshold_value /\
   threshold_value - (1 # 100) < 1 # 1152921504606846976).
Proof.
  intros H. apply predict_anomaly_Ok in H as (_ & _ & _ & _ & _ & Ha & _).
  unfold threshold in Ha. split; [exact Ha |]. split; [| split].
  - intros q Hq. rewrite Ha, Hq. apply fgtb_Fin.
  - intros q Hq Heq. rewrite Ha, Hq. unfold fgtb; cbn [fltb].
    apply Qltb_ge. rewrite Heq. apply Qle_refl.
  - exact threshold_value_nearest.
Qed.

(** A reading whose squared entries sum to five times the literal, against
    a model that outputs zero: [mse] is exactly the literal [0.01], in exact
    and in binary64 arithmetic alike, and the reading is not flagged. *)
Lemma C2_strict_threshold_witness :
  exists r,
    predict_anomaly reject_other (pump_registry zero_model)
      boundary_reading "Pump" = Ok r /\
    mse r = Fin threshold_value /\
    isAnomaly r = false.
Proof.
  eexists. split; [vm_compute; reflexivity |]. split; [reflexivity |].
  eapply (C2_strict_threshold reject_other
            (pump_registry zero_model) boundary_reading "Pump");
    [vm_compute; reflexivity | reflexivity | reflexivity].
Defined.



End Decision.

(** ** C4: the reconstruction error *)

Section ReconstructionError.
Local Open Scope Q_scope.
Import ModelPredictor Scenarios.

(** On finite vectors the computed error is the spec's formula. *)
Lemma mean_power2_sub_fin (s1 s2 s3 s4 s5 p1 p2 p3 p4 p5 : Q) :
  exists m,
    mean (power2 (sub (fin5 s1 s2 s3 s4 s5) (fin5 p1 p2 p3 p4 p5))) = Fin (Qred m) /\
    m == mean_squared_difference [s1; s2; s3; s4; s5] [p1; p2; p3; p4; p5].
Proof.
  eexists. split.
  - unfold mean, Numpy.sum, power2, sub, map1, map2, to_list, fin5, of_nat.
    cbn [fold_left length vibration temperature pressure flow_rate rotational_speed
         fsub fmul fadd fdiv].
    replace (Qeq_bool (inject_Z (Z.of_nat 5)) 0) with false by reflexivity.
    reflexivity.
  - unfold mean_squared_difference.
    cbn [combine List.map fold_right length].
    rewrite !Qred_correct. field.
Qed.

Lemma vec5_eta (v : vec5) :
  v = V5 (vibration v) (temperature v) (pressure v) (flow_rate v) (rotational_speed v).
Proof. by destruct v. Qed.







End ReconstructionError.

(** ** C6, C10: the registry *)

Section RegistryFacts.
Import ModelPredictor Registry Scenarios.

Variable fs : FileSystem.

Lemma pair_loads_true (mt : string) :
  pair_loads fs mt = true <->
  path_exists fs (model_filename mt) = true /\
  path_exists fs (scaler_filename mt) = true /\
  (exists m, load_model fs (model_filename mt) = Ok m) /\
  (exists s, joblib_load fs (scaler_filename mt) = Ok s).
Proof.
  unfold pair_loads. rewrite !andb_true_iff.
  destruct (load_model fs (model_filename mt)), (joblib_load fs (scaler_filename mt));
    simpl; split; intros H; destruct_and?; repeat split; eauto;
    try discriminate;
    repeat match goal with H : exists _, Raise _ = Ok _ |- _ => destruct H as [? [=]] end.
Qed.

(** One iteration either inserts the loaded pair or changes nothing. *)
Lemma load_step_cases (self : ModelPredictor) (mt : string) :
  (pair_loads fs mt = true /\
   exists m s,
     load_model fs (model_filename mt) = Ok m /\
     joblib_load fs (scaler_filename mt) = Ok s /\
     load_step fs self mt =
       {| models := <[mt := m]> (models self);
          scalers := <[mt := s]> (scalers self) |}) \/
  (pair_loads fs mt = false /\ load_step fs self mt = self).
Proof.
  unfold load_step, load_attempt, pair_loads.
  destruct (path_exists fs (model_filename mt)); [| by right].
  destruct (path_exists fs (scaler_filename mt)); [| by right].
  destruct (load_model fs (model_filename mt)) as [m|e]; [| by right].
  destruct (joblib_load fs (scaler_filename mt)) as [s|e]; [| by right].
  left. split; [done |]. by exists m, s.
Qed.

Lemma load_step_same_keys (self : ModelPredictor) (mt : string) :
  dom (models self) = dom (scalers self) ->
  dom (models (load_step fs self mt)) = dom (scalers (load_step fs self mt)).
Proof.
  intros H.
  destruct (load_step_cases self mt) as [(_ & m & s & _ & _ & ->) | (_ & ->)]; [| done].
  simpl. rewrite !dom_insert_L. by rewrite H.
Qed.

Lemma load_fold_same_keys (l : list string) (self : ModelPredictor) :
  dom (models self) = dom (scalers self) ->
  dom (models (fold_left (load_step fs) l self))
  = dom (scalers (fold_left (load_step fs) l self)).
Proof.
  revert self. induction l as [|mt l IH]; intros self H; [done |].
  simpl. apply IH. by apply load_step_same_keys.
Qed.

(** The entry found for [k] after the loop over [l]. *)
Lemma load_fold_models (l : list string) (self : ModelPredictor) (k : string) :
  models (fold_left (load_step fs) l self) !! k =
    if bool_decide (k ∈ l) && pair_loads fs k
    then match load_model fs (model_filename k) with
         | Ok m => Some m
         | Raise _ => None
         end
    else models self !! k.
Proof.
  revert self. induction l as [|mt l IH]; intros self.
  - cbn [fold_left]. by rewrite bool_decide_eq_false_2 by set_solver.
  - cbn [fold_left]. rewrite IH.
    destruct (decide (k ∈ l)) as [Hin | Hnin].
    + rewrite !bool_decide_eq_true_2 by set_solver. simpl.
      destruct (pair_loads fs k) eqn:Hk; [done |].
      destruct (load_step_cases self mt) as [(Hmt & m & s & _ & _ & ->) | (_ & ->)];
        [| done].
      simpl. rewrite lookup_insert_ne; [done | congruence].
    + rewrite (bool_decide_eq_false_2 (k ∈ l)) by done. simpl.
      destruct (decide (k = mt)) as [-> | Hne].
      * rewrite bool_decide_eq_true_2 by set_solver. simpl.
        destruct (load_step_cases self mt) as [(Hmt & m & s & Hm & _ & ->) | (Hmt & ->)];
          rewrite Hmt; [| done].
        simpl. by rewrite lookup_insert_eq, Hm.
      * rewrite bool_decide_eq_false_2 by (rewrite elem_of_cons; tauto). simpl.
        destruct (load_step_cases self mt) as [(Hmt & m & s & _ & _ & ->) | (_ & ->)];
          [| done].
        simpl. by rewrite lookup_insert_ne.
Qed.

Lemma load_fold_scalers (l : list string) (self : ModelPredictor) (k : string) :
  scalers (fold_left (load_step fs) l self) !! k =
    if bool_decide (k ∈ l) && pair_loads fs k
    then match joblib_load fs (scaler_filename k) with
         | Ok s => Some s
         | Raise _ => None
         end
    else scalers self !! k.
Proof.
  revert self. induction l as [|mt l IH]; intros self.
  - cbn [fold_left]. by rewrite bool_decide_eq_false_2 by set_solver.
  - cbn [fold_left]. rewrite IH.
    destruct (decide (k ∈ l)) as [Hin | Hnin].
    + rewrite !bool_decide_eq_true_2 by set_solver. simpl.
      destruct (pair_loads fs k) eqn:Hk; [done |].
      destruct (load_step_cases self mt) as [(Hmt & m & s & _ & _ & ->) | (_ & ->)];
        [| done].
      simpl. rewrite lookup_insert_ne; [done | congruence].
    + rewrite (bool_decide_eq_false_2 (k ∈ l)) by done. simpl.
      destruct (decide (k = mt)) as [-> | Hne].
      * rewrite bool_decide_eq_true_2 by set_solver. simpl.
        destruct (load_step_cases self mt) as [(Hmt & m & s & _ & Hs & ->) | (Hmt & ->)];
          rewrite Hmt; [| done].
        simpl. by rewrite lookup_insert_eq, Hs.
      * rewrite bool_decide_eq_false_2 by (rewrite elem_of_cons; tauto). simpl.
        destruct (load_step_cases self mt) as [(Hmt & m & s & _ & _ & ->) | (_ & ->)];
          [| done].
        simpl. by rewrite lookup_insert_ne.
Qed.

Lemma elem_of_loadable (k : string) :
  k ∈ loadable fs <-> k ∈ machine_types /\ pair_loads fs k = true.
Proof.
  unfold loadable. rewrite elem_of_list_to_set, list_elem_of_In, filter_In.
  by rewrite <- list_elem_of_In.
Qed.

Lemma init_models (k : string) :
  models (init fs) !! k =
    if bool_decide (k ∈ loadable fs)
    then match load_model fs (model_filename k) with
         | Ok m => Some m
         | Raise _ => None
         end
    else None.
Proof.
  unfold init, load_models_from. rewrite load_fold_models. simpl.
  destruct (decide (k ∈ machine_types)) as [Hin | Hnin].
  - rewrite bool_decide_eq_true_2 by done. simpl.
    destruct (pair_loads fs k) eqn:Hk.
    + rewrite bool_decide_eq_true_2; [done | by apply elem_of_loadable].
    + rewrite bool_decide_eq_false_2; [done |].
      rewrite elem_of_loadable. intros [_ ?]; congruence.
  - rewrite bool_decide_eq_false_2 by done. simpl.
    rewrite bool_decide_eq_false_2; [done |].
    rewrite elem_of_loadable. tauto.
Qed.

Lemma init_scalers (k : string) :
  scalers (init fs) !! k =
    if bool_decide (k ∈ loadable fs)
    then match joblib_load fs (scaler_filename k) with
         | Ok s => Some s
         | Raise _ => None
         end
    else None.
Proof.
  unfold init, load_models_from. rewrite load_fold_scalers. simpl.
  destruct (decide (k ∈ machine_types)) as [Hin | Hnin].
  - rewrite bool_decide_eq_true_2 by done. simpl.
    destruct (pair_loads fs k) eqn:Hk.
    + rewrite bool_decide_eq_true_2; [done | by apply elem_of_loadable].
    + rewrite bool_decide_eq_false_2; [done |].
      rewrite elem_of_loadable. intros [_ ?]; congruence.
  - rewrite bool_decide_eq_false_2 by done. simpl.
    rewrite bool_decide_eq_false_2; [done |].
    rewrite elem_of_loadable. tauto.
Qed.

Lemma init_models_dom : dom (models (init fs)) = loadable fs.
Proof.
  apply set_eq. intros k.
  rewrite elem_of_dom, init_models.
  destruct (decide (k ∈ loadable fs)) as [Hin | Hnin].
  - rewrite bool_decide_eq_true_2 by done.
    apply elem_of_loadable in Hin as Hk. destruct Hk as [_ Hk].
    apply pair_loads_true in Hk as (_ & _ & [m ->] & _). split; eauto.
  - rewrite bool_decide_eq_false_2 by done. split; [by intros [? [=]] | done].
Qed.

End RegistryFacts.

Section RegistryClaims.
Import ModelPredictor Registry Scenarios.

(** C6. The machine types the registry reports are exactly those whose
    artifact pair loads; a prediction for any other machine type raises the
    "No model found" error, and a prediction for a loaded type is the one
    made by a registry holding that type's own pair alone. *)
Theorem C6_partial_load (fs : FileSystem) :
  get_machine_types (init fs) = loadable fs /\
  (forall float64_of_other data mt,
     mt ∉ loadable fs ->
     predict_anomaly float64_of_other (init fs) data mt
     = Raise (ValueError ("No model found for machine type: " +:+ mt))) /\
  (forall float64_of_other data mt,
     mt ∈ loadable fs ->
     exists m s,
       load_model fs (model_filename mt) = Ok m /\
       joblib_load fs (scaler_filename mt) = Ok s /\
       predict_anomaly float64_of_other (init fs) data mt
       = predict_anomaly float64_of_other (single mt m s) data mt).
Proof.
  split; [| split].
  - apply init_models_dom.
  - intros f64 data mt Hnin. unfold predict_anomaly.
    by rewrite init_models, bool_decide_eq_false_2.
  - intros f64 data mt Hin.
    apply elem_of_loadable in Hin as Hk. destruct Hk as [_ Hk].
    apply pair_loads_true in Hk as (_ & _ & [m Hm] & [s Hs]).
    exists m, s. do 2 (split; [done |]).
    unfold predict_anomaly, preprocess_data, single; cbn [models scalers].
    rewrite init_models, init_scalers, !bool_decide_eq_true_2, Hm, Hs by done.
    by rewrite !lookup_singleton_eq.
Qed.

(** The spec's partial-load scenario: the files of ["Valve"] are absent. *)
Lemma C6_partial_load_witness :
  get_machine_types (init three_of_four) = {[ "Pump"; "Compressor"; "Motor" ]} /\
  predict_anomaly reject_other (init three_of_four) scenario_reading "Valve"
  = Raise (ValueError "No model found for machine type: Valve") /\
  predict_anomaly reject_other (init three_of_four) scenario_reading "Pump"
  = predict_anomaly reject_other (single "Pump" identity_model identity_scaler)
      scenario_reading "Pump".
Proof.
  destruct (C6_partial_load three_of_four) as (Hkeys & Hout & Hin).
  split; [| split].
  - rewrite Hkeys. apply set_eq. intros k. rewrite elem_of_loadable.
    unfold machine_types. rewrite !elem_of_union, !elem_of_singleton, !elem_of_cons.
    split.
    + intros [[-> | [-> | [-> | [-> | H]]]] Hk]; auto;
        [vm_compute in Hk; discriminate | by apply elem_of_nil in H].
    + intros [[-> | ->] | ->]; (split; [auto | vm_compute; reflexivity]).
  - apply Hout. rewrite elem_of_loadable. intros [_ Hk].
    vm_compute in Hk. discriminate.
  - destruct (Hin reject_other scenario_reading "Pump") as (m & s & Hm & Hs & ->).
    + apply elem_of_loadable. split; [apply list_elem_of_here | vm_compute; reflexivity].
    + by injection Hm as <-; injection Hs as <-.
Defined.

(** C10. The two dicts of the predictor have the same keys: this holds
    for the instance built by the constructor and is preserved by every
    iteration of the loading loop; a machine type has an entry exactly when
    it is one of the four and both files exist and both loaders return; so
    whenever the model check of [predict_anomaly] passes, the scaler lookup
    of [preprocess_data] succeeds and its error branch is not taken. *)
Theorem C10_models_scalers_same_keys (fs : FileSystem) :
  (forall l : list string,
     dom (models (fold_left (load_step fs) l {| models := ∅; scalers := ∅ |}))
     = dom (scalers (fold_left (load_step fs) l {| models := ∅; scalers := ∅ |}))) /\
  dom (models (init fs)) = dom (scalers (init fs)) /\
  (forall self mt,
     dom (models self) = dom (scalers self) ->
     dom (models (load_step fs self mt)) = dom (scalers (load_step fs self mt))) /\
  (forall mt,
     is_Some (models (init fs) !! mt) <->
     mt ∈ machine_types /\
     path_exists fs (model_filename mt) = true /\
     path_exists fs (scaler_filename mt) = true /\
     (exists m, load_model fs (model_filename mt) = Ok m) /\
     (exists s, joblib_load fs (scaler_filename mt) = Ok s)) /\
  (forall float64_of_other data mt,
     is_Some (models (init fs) !! mt) ->
     exists scaler,
       scalers (init fs) !! mt = Some scaler /\
       preprocess_data float64_of_other (init fs) data mt
       = preprocess_data float64_of_other
           {| models := ∅; scalers := {[ mt := scaler ]} |} data mt).
Proof.
  assert (Hall : forall l : list string,
     dom (models (fold_left (load_step fs) l {| models := ∅; scalers := ∅ |}))
     = dom (scalers (fold_left (load_step fs) l {| models := ∅; scalers := ∅ |}))).
  { intros l. by apply load_fold_same_keys. }
  assert (Hdom : dom (models (init fs)) = dom (scalers (init fs))) by apply Hall.
  split; [done |]. split; [done |]. split; [apply load_step_same_keys |]. split.
  - intros mt.
    by rewrite <- elem_of_dom, init_models_dom, elem_of_loadable, pair_loads_true.
  - intros f64 data mt Hm.
    apply elem_of_dom in Hm. rewrite Hdom in Hm.
    apply elem_of_dom in Hm as [scaler Hs]. exists scaler. split; [done |].
    unfold preprocess_data; cbn [scalers]. by rewrite Hs, lookup_singleton_eq.
Qed.

(** In the partial-load scenario ["Pump"] has a model, hence a scaler. *)
Lemma C10_models_scalers_same_keys_witness :
  is_Some (models (init three_of_four) !! "Pump") /\
  is_Some (scalers (init three_of_four) !! "Pump").
Proof.
  destruct (C10_models_scalers_same_keys three_of_four) as (_ & _ & _ & Hiff & Himp).
  assert (Hm : is_Some (models (init three_of_four) !! "Pump")).
  { apply Hiff. split; [apply list_elem_of_here |].
    do 2 (split; [vm_compute; reflexivity |]).
    split; eexists; reflexivity. }
  split; [exact Hm |].
  destruct (Himp reject_other scenario_reading "Pump" Hm) as (scaler & Hs & _).
  by exists scaler.
Defined.

End RegistryClaims.

(** ** C5, C7: validation and the process adapter *)

Section AdapterFacts.
Import ModelPredictor PredictorInterface Scenarios.

Variable float64_of_other : json -> result float.

(** The validation loop stops at the first absent field. *)
Lemma validate_missing (d : gmap string json) (fields : list string) (k : string) :
  k ∈ fields -> d !! k = None ->
  exists field,
    field ∈ fields /\ d !! field = None /\
    validate (JObj d) fields = Raise (ValueError ("Missing required field: " +:+ field)).
Proof.
  induction fields as [|f fields IH]; intros Hin Hk; [by apply elem_of_nil in Hin |].
  cbn [validate contains mbind result_bind].
  destruct (d !! f) as [v|] eqn:Hf.
  - rewrite bool_decide_eq_true_2 by eauto.
    apply elem_of_cons in Hin as [-> | Hin]; [congruence |].
    destruct (IH Hin Hk) as (field & Hfield & Hnone & Hval).
    exists field. split; [by apply list_elem_of_further | done].
  - rewrite bool_decide_eq_false_2 by (intros [? [=]]).
    exists f. split; [apply list_elem_of_here | done].
Qed.

Lemma validate_present (d : gmap string json) (fields : list string) :
  (forall k, k ∈ fields -> is_Some (d !! k)) ->
  validate (JObj d) fields = Ok tt.
Proof.
  induction fields as [|f fields IH]; intros H; [done |].
  cbn [validate contains mbind result_bind].
  rewrite bool_decide_eq_true_2 by (apply H, list_elem_of_here).
  apply IH. intros k Hk. by apply H, list_elem_of_further.
Qed.

(** A reading without one of the five measurements is never scored. *)
Lemma predict_missing_key (self : ModelPredictor) (d : gmap string json)
    (machine_type k : string) :
  k ∈ measurement_keys -> d !! k = None ->
  is_ok (predict_anomaly float64_of_other self d machine_type) = false.
Proof.
  intros Hin Hk. unfold predict_anomaly, preprocess_data, getitem.
  destruct (models self !! machine_type); [| done].
  destruct (scalers self !! machine_type); [| done].
  unfold measurement_keys in Hin.
  repeat (apply elem_of_cons in Hin as [-> | Hin]; [
    repeat (match goal with
            | |- context [d !! ?key] =>
                lazymatch goal with
                | H : d !! key = _ |- _ => rewrite H
                | _ => destruct (d !! key) eqn:?
                end
            end; cbn [mbind result_bind is_ok]); done |]).
  by apply elem_of_nil in Hin.
Qed.

(** A reading with an infinite measurement is never scored. *)
Lemma predict_infinite_value (self : ModelPredictor) (d : gmap string json)
    (machine_type k : string) (x : float) :
  k ∈ measurement_keys -> d !! k = Some (JNum x) -> is_inf x = true ->
  is_ok (predict_anomaly float64_of_other self d machine_type) = false.
Proof.
  intros Hin Hk Hinf. unfold predict_anomaly, preprocess_data, getitem.
  destruct (models self !! machine_type); [| done].
  destruct (scalers self !! machine_type); [| done].
  unfold measurement_keys in Hin.
  repeat (apply elem_of_cons in Hin as [-> | Hin]; [
    repeat (cbn [mbind result_bind is_ok];
            match goal with
            | |- context [d !! ?key] =>
                lazymatch goal with
                | H : d !! key = _ |- _ => rewrite H
                | _ => destruct (d !! key) eqn:?
                end
            | |- context [float64 _ (JNum ?y)] =>
                change (float64 float64_of_other (JNum y)) with (@Ok float y)
            | |- context [float64 _ ?v] =>
                destruct (float64 float64_of_other v) eqn:?
            end); cbn [mbind result_bind is_ok]; try done;
    unfold transform_row, has_inf, to_list;
    cbn [existsb vibration temperature pressure flow_rate rotational_speed];
    rewrite Hinf, ?orb_true_r; done |]).
  by apply elem_of_nil in Hin.
Qed.

Variable json_loads : string -> result json.
Variable py_str : json -> string.
Variable predictor : ModelPredictor.

Local Abbreviation main := (main float64_of_other json_loads py_str predictor).

Lemma main_empty_input : main "" = crashed_unbound.
Proof. reflexivity. Qed.

Lemma main_undecodable (input_data : string) (e : exn) :
  String.eqb input_data "" = false ->
  json_loads input_data = Raise e ->
  main input_data = crashed_unbound.
Proof.
  intros Hne Hdec. unfold PredictorInterface.main, try_block.
  by rewrite Hne, Hdec.
Qed.

(** Once [data] is a dict, every failure is reported as an error object. *)
Lemma main_object_failure (input_data : string) (d : gmap string json) (e : exn) :
  String.eqb input_data "" = false ->
  json_loads input_data = Ok (JObj d) ->
  validate_and_predict float64_of_other py_str predictor (JObj d) = Raise e ->
  main input_data
  = {| stdout := [error_result e d]; exit_code := 1; uncaught := None |}.
Proof.
  intros Hne Hdec Hfail. unfold PredictorInterface.main, try_block.
  by rewrite Hne, Hdec, Hfail.
Qed.

Lemma measurement_key_required (k : string) :
  k ∈ measurement_keys -> k ∈ required_fields.
Proof.
  unfold measurement_keys, required_fields.
  rewrite !elem_of_cons. intros H. decompose [or] H; auto 10.
Qed.

Lemma main_missing_measurement (input_data : string) (d : gmap string json)
    (k : string) :
  String.eqb input_data "" = false ->
  json_loads input_data = Ok (JObj d) ->
  k ∈ measurement_keys -> d !! k = None ->
  exists field,
    field ∈ required_fields /\ d !! field = None /\
    main input_data
    = {| stdout := [error_result
                      (ValueError ("Missing required field: " +:+ field)) d];
         exit_code := 1; uncaught := None |}.
Proof.
  intros Hne Hdec Hin Hk.
  destruct (validate_missing d required_fields k) as (field & Hf & Hnone & Hval);
    [by apply measurement_key_required | done |].
  exists field. do 2 (split; [done |]).
  apply main_object_failure; [done | done |].
  unfold validate_and_predict. by rewrite Hval.
Qed.

(** A decoded value that is not a dict never gets through the [try] block,
    and the handler then fails on [data.get]. *)
Lemma main_not_an_object (input_data : string) (data : json) :
  String.eqb input_data "" = false ->
  json_loads input_data = Ok data ->
  (forall d, data <> JObj d) ->
  main input_data = crashed_no_get.
Proof.
  intros Hne Hdec Hobj. unfold PredictorInterface.main, try_block.
  rewrite Hne, Hdec. unfold validate_and_predict.
  destruct data as [| b | x | s | l | d]; try (by destruct (Hobj d));
    destruct (validate _ required_fields) as [[]|e]; reflexivity.
Qed.

(** When the scoring function raises for every machine type, so does the
    [try] block, whatever the other fields are. *)
Lemma validate_and_predict_fails (d : gmap string json) :
  (forall machine_type,
     is_ok (predict_anomaly float64_of_other predictor d machine_type) = false) ->
  exists e, validate_and_predict float64_of_other py_str predictor (JObj d) = Raise e.
Proof.
  intros Hcore. unfold validate_and_predict.
  destruct (validate (JObj d) required_fields) as [[]|e]; [| by exists e].
  cbn [mbind result_bind]. unfold run_prediction, getitem.
  destruct (d !! "machineType") as [[| b | x | s | l | d']|];
    cbn [mbind result_bind]; eauto.
  specialize (Hcore s).
  destruct (predict_anomaly float64_of_other predictor d s); [discriminate | eauto].
Qed.

(** The error document carries the message and the degraded fields. *)
Lemma error_result_fields (e : exn) (d : gmap string json) :
  exists doc,
    error_result e d = JObj doc /\
    doc !! "error" = Some (JStr (str_exn e)) /\
    doc !! "timestamp" = Some (default (JStr "") (d !! "timestamp")) /\
    doc !! "machineId" = Some (default (JStr "") (d !! "machineId")) /\
    doc !! "machineType" = Some (default (JStr "") (d !! "machineType")) /\
    doc !! "anomalyProbability" = Some (JNum (Fin 0)) /\
    doc !! "isAnomaly" = Some (JBool false).
Proof.
  eexists. split; [reflexivity |]. repeat split.
Qed.

End AdapterFacts.

Section AdapterClaims.
Import ModelPredictor PredictorInterface Scenarios.

(** C7, at the empty input.  The [try] block raises "No input data received"
    before [data] is assigned; the handler then fails on [data.get]: nothing
    is written to standard output and the interpreter ends with the
    [UnboundLocalError], exit status 1.  No error document is produced. *)
Theorem C7_empty_input_no_error_document
    (float64_of_other : json -> result float)
    (json_loads : string -> result json) (py_str : json -> string)
    (predictor : ModelPredictor) :
  let p := main float64_of_other json_loads py_str predictor "" in
  stdout p = [] /\ exit_code p = 1%Z /\
  uncaught p = Some (UnboundLocalError
    "cannot access local variable 'data' where it is not associated with a value").
Proof. by rewrite main_empty_input. Qed.

(** C5, as the code has it.  A reading in which one of the five
    measurements is absent, or is an infinite number, is rejected:
    [predict_anomaly] raises for every machine type, and the adapter prints
    the error document and exits with status 1; for an absent measurement
    the error is the "Missing required field" [ValueError] of the adapter's
    validation loop.  No [PredictionResult] is produced. *)
Theorem C5_missing_or_infinite_rejected
    (float64_of_other : json -> result float)
    (json_loads : string -> result json) (py_str : json -> string)
    (predictor : ModelPredictor) (d : gmap string json) (k : string) :
  k ∈ measurement_keys ->
  (d !! k = None \/ exists x, d !! k = Some (JNum x) /\ is_inf x = true) ->
  (forall machine_type,
     is_ok (predict_anomaly float64_of_other predictor d machine_type) = false) /\
  (forall input_data,
     String.eqb input_data "" = false ->
     json_loads input_data = Ok (JObj d) ->
     exists e,
       main float64_of_other json_loads py_str predictor input_data
       = {| stdout := [error_result e d]; exit_code := 1; uncaught := None |} /\
       (d !! k = None ->
        exists field,
          field ∈ required_fields /\ d !! field = None /\
          e = ValueError ("Missing required field: " +:+ field))).
Proof.
  intros Hin Hbad.
  assert (Hcore : forall machine_type,
     is_ok (predict_anomaly float64_of_other predictor d machine_type) = false).
  { intros mt. destruct Hbad as [Hk | (x & Hk & Hinf)];
      [by eapply predict_missing_key | by eapply predict_infinite_value]. }
  split; [exact Hcore |].
  intros input_data Hne Hdec.
  destruct (d !! k) as [v|] eqn:Hk.
  - destruct (validate_and_predict_fails float64_of_other py_str predictor d Hcore)
      as [e He].
    exists e. split; [by apply main_object_failure | done].
  - destruct (main_missing_measurement float64_of_other json_loads py_str predictor
                input_data d k Hne Hdec Hin Hk) as (field & Hf & Hnone & Hmain).
    eexists. split; [exact Hmain |]. intros _. by exists field.
Qed.

(** The scenario reading without its pressure, and with an infinite
    temperature. *)
Lemma C5_missing_or_infinite_rejected_witness :
  main reject_other decode_no_pressure str_placeholder
    (pump_registry identity_model) no_pressure_text
  = {| stdout := [error_result (ValueError "Missing required field: pressure")
                    no_pressure_reading];
       exit_code := 1; uncaught := None |} /\
  is_ok (predict_anomaly reject_other (pump_registry identity_model)
           inf_reading "Pump") = false.
Proof.
  split.
  - destruct (C5_missing_or_infinite_rejected reject_other decode_no_pressure
                str_placeholder (pump_registry identity_model)
                no_pressure_reading "pressure") as [_ Hmain].
    + unfold measurement_keys. rewrite !elem_of_cons. auto.
    + left. vm_compute. reflexivity.
    + destruct (Hmain no_pressure_text) as (e & He & Hfield);
        [vm_compute; reflexivity | vm_compute; reflexivity |].
      destruct Hfield as (field & Hf & Hnone & ->); [vm_compute; reflexivity |].
      unfold required_fields in Hf. rewrite !elem_of_cons in Hf.
      destruct Hf as [-> | [-> | [-> | [-> | [-> | [-> | [-> | [-> | Hf]]]]]]]];
        try (vm_compute in Hnone; discriminate Hnone);
        [exact He | by apply elem_of_nil in Hf].
  - apply (C5_missing_or_infinite_rejected reject_other decode_no_pressure
             str_placeholder (pump_registry identity_model)
             inf_reading "temperature").
    + unfold measurement_keys. rewrite !elem_of_cons. auto.
    + right. exists PInf. split; vm_compute; reflexivity.
Defined.

(** C5 as stated fails for NaN: the scaler's input validation lets NaN
    through, the reading is scored, and the adapter prints a result and
    exits with status 0. *)
Lemma C5_nan_reading_is_scored :
  nan_reading !! "vibration" = Some (JNum NaN) /\
  (exists r,
     predict_anomaly reject_other (pump_registry identity_model) nan_reading "Pump"
     = Ok r /\
     mse r = NaN /\ anomalyProbability r = NaN /\ isAnomaly r = false /\
     main reject_other decode_nan_reading str_placeholder
       (pump_registry identity_model) nan_reading_text
     = {| stdout := [result_json r]; exit_code := 0; uncaught := None |}).
Proof.
  split; [vm_compute; reflexivity |].
  eexists. split; [vm_compute; reflexivity |].
  repeat split; vm_compute; reflexivity.
Qed.

End AdapterClaims.

(** ** C9: retrieval order, re-sorting and the split *)

Section OrderFacts.
Import TrainModel Chronology.

Lemma StronglySorted_impl {A : Type} (R S : A -> A -> Prop) (l : list A) :
  (forall a b, R a b -> S a b) -> StronglySorted R l -> StronglySorted S l.
Proof.
  intros HRS H. induction H as [|a l Hl IH Ha]; constructor; [done |].
  eapply List.Forall_impl; [| exact Ha]. auto.
Qed.

Lemma StronglySorted_snoc {A : Type} (R : A -> A -> Prop) (l : list A) (a : A) :
  StronglySorted R l -> List.Forall (fun x => R x a) l -> StronglySorted R (l ++ [a]).
Proof.
  intros H. induction H as [|b l Hl IH Hb]; intros Ha; simpl.
  - repeat constructor.
  - apply List.Forall_cons_iff in Ha as [Hba Ha].
    constructor; [by apply IH |].
    apply List.Forall_app. split; [done | by constructor].
Qed.

Lemma StronglySorted_rev {A : Type} (R : A -> A -> Prop) (l : list A) :
  StronglySorted R l -> StronglySorted (fun a b => R b a) (rev l).
Proof.
  intros H. induction H as [|a l Hl IH Ha]; simpl; [constructor |].
  apply StronglySorted_snoc; [done |].
  apply List.Forall_forall. intros x Hx. apply List.in_rev in Hx.
  by eapply List.Forall_forall in Ha.
Qed.

Lemma StronglySorted_firstn {A : Type} (R : A -> A -> Prop) (n : nat) (l : list A) :
  StronglySorted R l -> StronglySorted R (firstn n l).
Proof.
  intros H. revert n. induction H as [|a l Hl IH Ha]; intros [|n]; simpl;
    try constructor; [apply IH |].
  by apply Forall_take.
Qed.

Lemma sort_values_ascending (l : list Row) : ascending (sort_values l).
Proof.
  unfold ascending, sort_values.
  eapply StronglySorted_impl; [| apply ByTimestamp.StronglySorted_sort].
  - intros a b H. by apply Z.leb_le.
  - intros a b c Hab Hbc. unfold is_true in *.
    rewrite Z.leb_le in *. lia.
Qed.

Lemma sort_values_permutation (l : list Row) : sort_values l ≡ₚ l.
Proof. symmetry. apply ByTimestamp.Permuted_sort. Qed.

Lemma order_by_timestamp_desc_descending (l : list Row) :
  descending (order_by_timestamp_desc l).
Proof.
  unfold descending, order_by_timestamp_desc.
  apply (StronglySorted_rev (fun a b => (timestamp a <= timestamp b)%Z)).
  apply sort_values_ascending.
Qed.

Lemma order_by_timestamp_desc_permutation (l : list Row) :
  order_by_timestamp_desc l ≡ₚ l.
Proof.
  unfold order_by_timestamp_desc.
  rewrite <- Permutation_rev. apply sort_values_permutation.
Qed.

Lemma query_descending (table : list SensorData) (mt : string) (limit : nat) :
  descending (query table mt limit).
Proof.
  unfold query. apply StronglySorted_firstn, order_by_timestamp_desc_descending.
Qed.

(** [int(0.8 * n)] is the integer part of [4n/5]. *)
Lemma split_idx_floor (n : nat) : split_idx n = (4 * n / 5)%nat.
Proof.
  unfold split_idx.
  assert (H : Qfloor ((8 # 10) * inject_Z (Z.of_nat n)) = (4 * Z.of_nat n / 5)%Z).
  { unfold Qfloor, Qmult, inject_Z; simpl Qnum; simpl Qden.
    change (Z.pos (10 * 1)) with (2 * 5)%Z.
    replace (8 * Z.of_nat n)%Z with (2 * (4 * Z.of_nat n))%Z by lia.
    by rewrite Z.div_mul_cancel_l. }
  rewrite H. apply Nat2Z.inj. rewrite Z2Nat.id, Nat2Z.inj_div, Nat2Z.inj_mul; [done |].
  apply Z.div_pos; lia.
Qed.

Lemma split_idx_le (n : nat) : (split_idx n <= n)%nat.
Proof.
  rewrite split_idx_floor.
  apply Nat.Div0.div_le_upper_bound. lia.
Qed.

End OrderFacts.

(** ** The training function *)

Section TrainingFacts.
Import TrainModel Chronology.

Lemma check_array_Ok (X Y : list vec5) :
  check_array X = Ok Y ->
  Y = X /\ X <> [] /\ existsb has_inf X = false.
Proof.
  unfold check_array. destruct (existsb has_inf X); [discriminate |].
  destruct X; [discriminate |]. by intros [= <-].
Qed.

Lemma fit_Ok (X : list vec5) (s : MinMaxScaler) :
  fit X = Ok s ->
  X <> [] /\ existsb has_inf X = false /\
  data_min_ s = nanmin_axis0 X /\ data_max_ s = nanmax_axis0 X.
Proof.
  unfold fit. destruct (check_array X) as [Y|e] eqn:Hc; [| discriminate].
  apply check_array_Ok in Hc as (-> & Hne & Hinf).
  cbn [mbind result_bind]. by intros [= <-].
Qed.

Lemma fit_transform_Ok (X Xs : list vec5) (s : MinMaxScaler) :
  fit_transform X = Ok (s, Xs) ->
  fit X = Ok s /\ Xs = List.map (scale_row s) X.
Proof.
  unfold fit_transform. destruct (fit X) as [s'|e] eqn:Hfit; [| discriminate].
  cbn [mbind result_bind]. unfold transform.
  destruct (check_array X) as [Y|e] eqn:Hc; [| discriminate].
  apply check_array_Ok in Hc as (-> & _).
  cbn [mbind result_bind]. by intros [= <- <-].
Qed.

Lemma prepare_data_Ok (df : list Row) (X y : list vec5) (s : MinMaxScaler) :
  prepare_data df = Ok (X, y, s) ->
  fit (List.map features df) = Ok s /\
  X = List.map (scale_row s) (List.map features df) /\ y = X.
Proof.
  unfold prepare_data.
  destruct (fit_transform (List.map features df)) as [[s' Xs]|e] eqn:Hft;
    [| discriminate].
  cbn [mbind result_bind]. intros [= <- <- <-].
  by apply fit_transform_Ok in Hft as [? ?].
Qed.

Variable keras_fit :
  list vec5 -> list vec5 -> list vec5 -> list vec5 -> result Keras.Model.
Variable keras_evaluate : Keras.Model -> list vec5 -> list vec5 -> float.

Local Abbreviation train := (train_model_for_machine_type keras_fit keras_evaluate).

Lemma train_prepared_Ok (mt : string) (X y : list vec5) (s : MinMaxScaler)
    (r : TrainResult) :
  train_prepared keras_fit keras_evaluate mt X y s = Ok (Some r) ->
  (10 <= length X)%nat /\
  scaler r = s /\
  keras_fit (take (split_idx (length X)) X) (take (split_idx (length X)) y)
            (drop (split_idx (length X)) X) (drop (split_idx (length X)) y)
  = Ok (model r).
Proof.
  unfold train_prepared.
  destruct (Nat.ltb_spec (length X) 10); [discriminate |].
  destruct (keras_fit _ _ _ _) as [m|e]; [| discriminate].
  cbn [mbind result_bind]. by intros [= <-].
Qed.

(** What a successful training run is made of. *)
Lemma train_Ok (db : option (list SensorData)) (mt : string) (r : TrainResult) :
  train db mt = Ok (Some r) ->
  exists df X,
    load_data_from_db db mt default_limit = Some df /\
    (100 <= length df)%nat /\
    fit (List.map features df) = Ok (scaler r) /\
    X = List.map (scale_row (scaler r)) (List.map features df) /\
    keras_fit (take (split_idx (length X)) X) (take (split_idx (length X)) X)
              (drop (split_idx (length X)) X) (drop (split_idx (length X)) X)
    = Ok (model r).
Proof.
  unfold train_model_for_machine_type.
  destruct (load_data_from_db db mt default_limit) as [df|]; [| discriminate].
  destruct (Nat.ltb_spec (length df) 100); [discriminate |].
  destruct (prepare_data df) as [[[X y] s]|e] eqn:Hp; [| discriminate].
  cbn [mbind result_bind]. intros Ht.
  apply prepare_data_Ok in Hp as (Hfit & HX & ->).
  apply train_prepared_Ok in Ht as (_ & <- & Hk).
  exists df, X. by rewrite <- HX.
Qed.

Lemma train_too_few (db : option (list SensorData)) (mt : string) (df : list Row) :
  load_data_from_db db mt default_limit = Some df ->
  (length df < 100)%nat ->
  train db mt = Ok None.
Proof.
  intros Hload Hlen. unfold train_model_for_machine_type. rewrite Hload.
  by destruct (Nat.ltb_spec (length df) 100); [| lia].
Qed.

Lemma train_prepared_too_few (mt : string) (X y : list vec5) (s : MinMaxScaler) :
  (length X < 10)%nat ->
  train_prepared keras_fit keras_evaluate mt X y s = Ok None.
Proof.
  intros Hlen. unfold train_prepared.
  by destruct (Nat.ltb_spec (length X) 10); [| lia].
Qed.

(** The entry of [main] for a machine type is decided by that type's own
    training run. *)
Lemma main_fold_lookup (db : option (list SensorData)) (l : list string)
    (trained : gmap string TrainResult) (k : string) :
  fold_left (main_step keras_fit keras_evaluate db) l trained !! k =
    if bool_decide (k ∈ l)
    then match train db k with
         | Ok (Some r) => Some r
         | _ => trained !! k
         end
    else trained !! k.
Proof.
  revert trained. induction l as [|mt l IH]; intros trained.
  - cbn [fold_left]. by rewrite bool_decide_eq_false_2 by set_solver.
  - cbn [fold_left]. rewrite IH. unfold main_step.
    destruct (decide (k = mt)) as [-> | Hne].
    + rewrite (bool_decide_eq_true_2 (mt ∈ mt :: l)) by set_solver.
      destruct (train db mt) as [[r|]|e]; case_bool_decide; try done.
      by rewrite lookup_insert_eq.
    + assert (Hiff : k ∈ mt :: l <-> k ∈ l) by (rewrite elem_of_cons; tauto).
      rewrite (bool_decide_ext _ _ Hiff).
      destruct (train db mt) as [[r|]|e]; try done.
      by rewrite lookup_insert_ne.
Qed.

End TrainingFacts.

(** ** The fitted bounds *)

Section BoundsFacts.
Local Open Scope Q_scope.

Lemma no_inf_cons (x : float) (l : list float) :
  no_inf (x :: l) -> is_inf x = false /\ no_inf l.
Proof.
  intros H. split; [apply H; by left | intros y Hy; apply H; by right].
Qed.

Lemma fold_nan_min_fin (l : list float) (a : Q) :
  no_inf l ->
  exists lo, fold_left nan_min2 l (Fin a) = Fin lo /\ lo <= a /\
             forall q, In (Fin q) l -> lo <= q.
Proof.
  revert a. induction l as [|x l IH]; intros a Hl.
  - exists a. split; [done |]. split; [apply Qle_refl | intros q []].
  - apply no_inf_cons in Hl as [Hx Hl]. cbn [fold_left].
    destruct x as [b| | |]; try discriminate; cbn [nan_min2 fltb].
    + destruct (Qltb b a) eqn:E.
      * apply Qltb_lt in E.
        destruct (IH b Hl) as (lo & -> & Hlo & Hall). exists lo.
        split; [done |]. split; [lra |].
        intros q [[= <-] | Hq]; [done | by apply Hall].
      * apply Qltb_ge in E.
        destruct (IH a Hl) as (lo & -> & Hlo & Hall). exists lo.
        split; [done |]. split; [done |].
        intros q [[= <-] | Hq]; [lra | by apply Hall].
    + destruct (IH a Hl) as (lo & -> & Hlo & Hall). exists lo.
      split; [done |]. split; [done |].
      intros q [[=] | Hq]. by apply Hall.
Qed.

Lemma nanmin_lower_bound (l : list float) (q : Q) :
  no_inf l -> In (Fin q) l ->
  exists lo, nanmin l = Fin lo /\ lo <= q.
Proof.
  unfold nanmin. induction l as [|x l IH]; intros Hl Hq; [destruct Hq |].
  apply no_inf_cons in Hl as [Hx Hl]. cbn [fold_left].
  destruct x as [b| | |]; try discriminate; cbn [nan_min2].
  - destruct (fold_nan_min_fin l b Hl) as (lo & -> & Hlo & Hall).
    exists lo. split; [done |].
    destruct Hq as [[= <-] | Hq]; [done | by apply Hall].
  - destruct Hq as [[=] | Hq]. by apply IH.
Qed.

Lemma fold_nan_max_fin (l : list float) (a : Q) :
  no_inf l ->
  exists hi, fold_left nan_max2 l (Fin a) = Fin hi /\ a <= hi /\
             forall q, In (Fin q) l -> q <= hi.
Proof.
  revert a. induction l as [|x l IH]; intros a Hl.
  - exists a. split; [done |]. split; [apply Qle_refl | intros q []].
  - apply no_inf_cons in Hl as [Hx Hl]. cbn [fold_left].
    destruct x as [b| | |]; try discriminate; cbn [nan_max2 fltb].
    + destruct (Qltb a b) eqn:E.
      * apply Qltb_lt in E.
        destruct (IH b Hl) as (hi & -> & Hhi & Hall). exists hi.
        split; [done |]. split; [lra |].
        intros q [[= <-] | Hq]; [done | by apply Hall].
      * apply Qltb_ge in E.
        destruct (IH a Hl) as (hi & -> & Hhi & Hall). exists hi.
        split; [done |]. split; [done |].
        intros q [[= <-] | Hq]; [lra | by apply Hall].
    + destruct (IH a Hl) as (hi & -> & Hhi & Hall). exists hi.
      split; [done |]. split; [done |].
      intros q [[=] | Hq]. by apply Hall.
Qed.

Lemma nanmax_upper_bound (l : list float) (q : Q) :
  no_inf l -> In (Fin q) l ->
  exists hi, nanmax l = Fin hi /\ q <= hi.
Proof.
  unfold nanmax. induction l as [|x l IH]; intros Hl Hq; [destruct Hq |].
  apply no_inf_cons in Hl as [Hx Hl]. cbn [fold_left].
  destruct x as [b| | |]; try discriminate; cbn [nan_max2].
  - destruct (fold_nan_max_fin l b Hl) as (hi & -> & Hhi & Hall).
    exists hi. split; [done |].
    destruct Hq as [[= <-] | Hq]; [done | by apply Hall].
  - destruct Hq as [[=] | Hq]. by apply IH.
Qed.

(** A column of a validated array holds no infinity. *)
Lemma column_no_inf (proj : vec5 -> float) (X : list vec5) :
  In proj columns -> existsb has_inf X = false -> no_inf (column proj X).
Proof.
  intros Hproj Hno x Hx. unfold column in Hx.
  apply in_map_iff in Hx as (v & <- & Hv).
  destruct (is_inf (proj v)) eqn:E; [| done].
  assert (existsb has_inf X = true); [| congruence].
  apply existsb_exists. exists v. split; [done |].
  unfold has_inf. apply existsb_exists. exists (proj v). split; [| done].
  unfold to_list, columns in *. simpl in Hproj |- *.
  destruct Hproj as [<- | [<- | [<- | [<- | [<- | []]]]]]; tauto.
Qed.

Lemma proj_nanmin_axis0 (proj : vec5 -> float) (X : list vec5) :
  In proj columns -> proj (nanmin_axis0 X) = nanmin (column proj X).
Proof.
  unfold columns. simpl.
  intros [<- | [<- | [<- | [<- | [<- | []]]]]]; reflexivity.
Qed.

Lemma proj_nanmax_axis0 (proj : vec5 -> float) (X : list vec5) :
  In proj columns -> proj (nanmax_axis0 X) = nanmax (column proj X).
Proof.
  unfold columns. simpl.
  intros [<- | [<- | [<- | [<- | [<- | []]]]]]; reflexivity.
Qed.

(** The fitted bounds enclose every finite value of every fitted row. *)
Lemma fit_bounds (X : list vec5) (s : MinMaxScaler) (v : vec5)
    (proj : vec5 -> float) (q : Q) :
  fit X = Ok s -> In v X -> In proj columns -> proj v = Fin q ->
  exists lo hi,
    proj (data_min_ s) = Fin lo /\ proj (data_max_ s) = Fin hi /\
    lo <= q /\ q <= hi.
Proof.
  intros Hfit Hv Hproj Hq.
  apply fit_Ok in Hfit as (_ & Hinf & -> & ->).
  rewrite proj_nanmin_axis0, proj_nanmax_axis0 by done.
  assert (Hin : In (Fin q) (column proj X)).
  { unfold column. apply in_map_iff. by exists v. }
  pose proof (column_no_inf proj X Hproj Hinf) as Hno.
  destruct (nanmin_lower_bound _ q Hno Hin) as (lo & -> & Hlo).
  destruct (nanmax_upper_bound _ q Hno Hin) as (hi & -> & Hhi).
  by exists lo, hi.
Qed.

End BoundsFacts.

(** ** C1, C8, C9: the training pipeline *)

Section TrainingClaims.
Local Open Scope Q_scope.
Import TrainModel Chronology TrainingScenarios.

(** C9. The query returns the rows of the machine type in descending time
    order, cut at the row limit; the data frame is that selection re-sorted
    ascending; the scaled rows are split at [int(0.8 * n)], the integer part
    of [4n/5], in order: the first rows are the training set passed to the
    trainer, the remaining rows the validation set. *)
Theorem C9_chronological_split
    (keras_fit : list vec5 -> list vec5 -> list vec5 -> list vec5 -> result Keras.Model)
    (keras_evaluate : Keras.Model -> list vec5 -> list vec5 -> float)
    (table : list SensorData) (mt : string) :
  (forall limit,
     descending (query table mt limit) /\
     (length (query table mt limit) <= limit)%nat /\
     exists all,
       all ≡ₚ rows_of table mt /\ descending all /\
       query table mt limit = take limit all) /\
  (forall limit df,
     load_data_from_db (Some table) mt limit = Some df ->
     ascending df /\ df ≡ₚ query table mt limit) /\
  (forall r,
     train_model_for_machine_type keras_fit keras_evaluate (Some table) mt
     = Ok (Some r) ->
     exists df,
       load_data_from_db (Some table) mt default_limit = Some df /\
       ascending df /\
       let n := length df in
       let scaled := List.map (scale_row (scaler r)) in
       split_idx n = (4 * n / 5)%nat /\
       keras_fit (scaled (List.map features (take (split_idx n) df)))
                 (scaled (List.map features (take (split_idx n) df)))
                 (scaled (List.map features (drop (split_idx n) df)))
                 (scaled (List.map features (drop (split_idx n) df)))
       = Ok (model r) /\
       length (take (split_idx n) df) = split_idx n /\
       take (split_idx n) df ++ drop (split_idx n) df = df).
Proof.
  split; [| split].
  - intros limit. split; [apply query_descending |]. split.
    + unfold query. rewrite length_take. lia.
    + exists (order_by_timestamp_desc (rows_of table mt)).
      split; [apply order_by_timestamp_desc_permutation |].
      split; [apply order_by_timestamp_desc_descending | reflexivity].
  - intros limit df [= <-].
    split; [apply sort_values_ascending | apply sort_values_permutation].
  - intros r Ht.
    apply train_Ok in Ht as (df & X & Hload & Hlen & Hfit & -> & Hk).
    exists df. split; [done |].
    split; [injection Hload as <-; apply sort_values_ascending |].
    cbn zeta. split; [apply split_idx_floor |].
    rewrite !length_map in Hk.
    rewrite !firstn_map, !skipn_map in Hk.
    split; [exact Hk |].
    split; [apply length_take_le, split_idx_le | apply take_drop].
Qed.

(** The pump rows of [table_A]: 100 rows, split at 80. *)
Lemma C9_chronological_split_witness :
  exists r df,
    train_model_for_machine_type trivial_fit trivial_evaluate (Some table_A) "Pump"
    = Ok (Some r) /\
    load_data_from_db (Some table_A) "Pump" default_limit = Some df /\
    ascending df /\
    length df = 100%nat /\
    split_idx (length df) = 80%nat /\
    length (take (split_idx (length df)) df) = 80%nat /\
    descending (query table_A "Pump" default_limit).
Proof.
  destruct (C9_chronological_split trivial_fit trivial_evaluate table_A "Pump")
    as (Hquery & Hsort & Hsplit).
  destruct (train_model_for_machine_type trivial_fit trivial_evaluate
              (Some table_A) "Pump") as [[r|]|e] eqn:Ht;
    [| vm_compute in Ht; discriminate Ht | vm_compute in Ht; discriminate Ht].
  destruct (Hsplit r eq_refl) as (df & Hload & Hasc & _ & _ & Hlen & _).
  exists r, df. split; [reflexivity |]. split; [exact Hload |].
  split; [exact Hasc |].
  assert (Hn : length df = 100%nat).
  { vm_compute in Hload. injection Hload as <-. reflexivity. }
  split; [exact Hn |]. rewrite Hlen, Hn.
  split; [reflexivity |]. split; [reflexivity |].
  apply (Hquery default_limit).
Defined.

(** C8. A machine type with fewer than 100 loaded rows is not trained (the
    function returns its "Not enough data" [None]), and so is a prepared
    array of fewer than 10 rows.  In [main] the entry of each machine type
    is decided by its own training run: a run that returns [None] or raises
    leaves no entry and every other type keeps the result of its own run,
    which depends on the rows of that type only. *)
Theorem C8_insufficient_data_isolated
    (keras_fit : list vec5 -> list vec5 -> list vec5 -> list vec5 -> result Keras.Model)
    (keras_evaluate : Keras.Model -> list vec5 -> list vec5 -> float)
    (db : option (list SensorData)) :
  (forall mt df,
     load_data_from_db db mt default_limit = Some df ->
     (length df < 100)%nat ->
     train_model_for_machine_type keras_fit keras_evaluate db mt = Ok None) /\
  (forall mt X y s,
     (length X < 10)%nat ->
     train_prepared keras_fit keras_evaluate mt X y s = Ok None) /\
  (forall mt,
     mt ∈ machine_types ->
     main keras_fit keras_evaluate db !! mt
     = match train_model_for_machine_type keras_fit keras_evaluate db mt with
       | Ok (Some r) => Some r
       | _ => None
       end) /\
  (forall mt,
     train_model_for_machine_type keras_fit keras_evaluate db mt = Ok None \/
     (exists e, train_model_for_machine_type keras_fit keras_evaluate db mt = Raise e) ->
     main keras_fit keras_evaluate db !! mt = None) /\
  (forall table table' mt,
     rows_of table mt = rows_of table' mt ->
     train_model_for_machine_type keras_fit keras_evaluate (Some table) mt
     = train_model_for_machine_type keras_fit keras_evaluate (Some table') mt).
Proof.
  split; [apply train_too_few |]. split; [apply train_prepared_too_few |].
  split; [| split].
  - intros mt Hin. unfold main. rewrite main_fold_lookup.
    rewrite bool_decide_eq_true_2 by done.
    by destruct (train_model_for_machine_type _ _ db mt) as [[r|]|e].
  - intros mt Hfail. unfold main. rewrite main_fold_lookup.
    destruct Hfail as [-> | [e ->]]; by case_bool_decide.
  - intros table table' mt Hrows.
    unfold train_model_for_machine_type, load_data_from_db, query.
    fold (rows_of table mt). fold (rows_of table' mt). by rewrite Hrows.
Qed.

(** In [table_mixed], ["Motor"] has too few rows and ["Valve"] makes the
    scaler raise; ["Pump"] is trained all the same. *)
Lemma C8_insufficient_data_isolated_witness :
  train_model_for_machine_type trivial_fit trivial_evaluate (Some table_mixed) "Motor"
  = Ok None /\
  main trivial_fit trivial_evaluate (Some table_mixed) !! "Motor" = None /\
  main trivial_fit trivial_evaluate (Some table_mixed) !! "Valve" = None /\
  is_Some (main trivial_fit trivial_evaluate (Some table_mixed) !! "Pump").
Proof.
  destruct (C8_insufficient_data_isolated trivial_fit trivial_evaluate
              (Some table_mixed)) as (Hfew & _ & Hown & Hfail & _).
  assert (Hmotor : train_model_for_machine_type trivial_fit trivial_evaluate
                     (Some table_mixed) "Motor" = Ok None).
  { eapply Hfew; [reflexivity |]. vm_compute. lia. }
  split; [exact Hmotor |].
  split; [apply Hfail; by left |].
  split.
  - apply Hfail. right. eexists. vm_compute. reflexivity.
  - rewrite Hown by (unfold machine_types; rewrite !elem_of_cons; auto).
    destruct (train_model_for_machine_type trivial_fit trivial_evaluate
                (Some table_mixed) "Pump") as [[r|]|e] eqn:Ht;
      [by eexists | vm_compute in Ht; discriminate Ht
       | vm_compute in Ht; discriminate Ht].
Defined.

(** C1, as the code has it.  The scaler of a trained machine type is
    fitted on the features of all loaded rows, before the split: its bounds
    are the column minima and maxima over the whole data frame, and they
    enclose every finite value of every row, of the training part and of
    the validation part alike. *)
Theorem C1_scaler_fitted_on_all_rows
    (keras_fit : list vec5 -> list vec5 -> list vec5 -> list vec5 -> result Keras.Model)
    (keras_evaluate : Keras.Model -> list vec5 -> list vec5 -> float)
    (db : option (list SensorData)) (mt : string) (r : TrainResult) :
  train_model_for_machine_type keras_fit keras_evaluate db mt = Ok (Some r) ->
  exists df,
    load_data_from_db db mt default_limit = Some df /\
    fit (List.map features df) = Ok (scaler r) /\
    data_min_ (scaler r) = nanmin_axis0 (List.map features df) /\
    data_max_ (scaler r) = nanmax_axis0 (List.map features df) /\
    forall row proj q,
      In row (take (split_idx (length df)) df) \/
      In row (drop (split_idx (length df)) df) ->
      In proj columns ->
      proj (features row) = Fin q ->
      exists lo hi,
        proj (data_min_ (scaler r)) = Fin lo /\
        proj (data_max_ (scaler r)) = Fin hi /\
        lo <= q /\ q <= hi.
Proof.
  intros Ht. apply train_Ok in Ht as (df & X & Hload & _ & Hfit & _).
  exists df. split; [done |]. split; [done |].
  pose proof (fit_Ok _ _ Hfit) as (_ & _ & Hmin & Hmax).
  split; [done |]. split; [done |].
  intros row proj q Hrow Hproj Hq.
  eapply (fit_bounds _ _ (features row)); try done.
  apply in_map. rewrite <- (take_drop (split_idx (length df)) df).
  apply in_app_iff. exact Hrow.
Qed.

(** In [table_B] the upper bound 7 comes from the validation rows. *)
Lemma C1_scaler_fitted_on_all_rows_witness :
  exists r df,
    train_model_for_machine_type trivial_fit trivial_evaluate (Some table_B) "Pump"
    = Ok (Some r) /\
    load_data_from_db (Some table_B) "Pump" default_limit = Some df /\
    fit (List.map features df) = Ok (scaler r) /\
    data_max_ (scaler r) = nanmax_axis0 (List.map features df).
Proof.
  destruct (train_model_for_machine_type trivial_fit trivial_evaluate
              (Some table_B) "Pump") as [[r|]|e] eqn:Ht;
    [| vm_compute in Ht; discriminate Ht | vm_compute in Ht; discriminate Ht].
  destruct (C1_scaler_fitted_on_all_rows trivial_fit trivial_evaluate
              (Some table_B) "Pump" r Ht) as (df & Hload & Hfit & _ & Hmax & _).
  by exists r, df.
Defined.

(** C1 as stated fails: two tables with the same first 80 (training) rows
    and different last 20 (validation) rows give different scalers. *)
Lemma C1_scaler_depends_on_validation_rows :
  exists dfA dfB rA rB,
    load_data_from_db (Some table_A) "Pump" default_limit = Some dfA /\
    load_data_from_db (Some table_B) "Pump" default_limit = Some dfB /\
    length dfA = 100%nat /\ length dfB = 100%nat /\
    take (split_idx 100) dfA = take (split_idx 100) dfB /\
    train_model_for_machine_type trivial_fit trivial_evaluate (Some table_A) "Pump"
    = Ok (Some rA) /\
    train_model_for_machine_type trivial_fit trivial_evaluate (Some table_B) "Pump"
    = Ok (Some rB) /\
    data_max_ (scaler rA) = const (Fin 1) /\
    data_max_ (scaler rB) = const (Fin 7) /\
    scaler rA <> scaler rB.
Proof.
  do 4 eexists.
  split; [vm_compute; reflexivity |]. split; [vm_compute; reflexivity |].
  split; [reflexivity |]. split; [reflexivity |].
  split; [vm_compute; reflexivity |].
  split; [vm_compute; reflexivity |]. split; [vm_compute; reflexivity |].
  split; [reflexivity |]. split; [reflexivity |].
  discriminate.
Qed.

End TrainingClaims.

(** * Further properties of the code *)

(** ** Scoring: NaN readings and exact reconstructions *)

Section ScoringExtras.
Local Open Scope Q_scope.
Import ModelPredictor Scenarios.

Lemma is_nan_true (x : float) : is_nan x = true -> x = NaN.
Proof. by destruct x. Qed.

Lemma fadd_NaN_l (y : float) : fadd NaN y = NaN.
Proof. reflexivity. Qed.

Lemma fadd_NaN_r (x : float) : fadd x NaN = NaN.
Proof. by destruct x. Qed.

Lemma fmul_NaN_l (y : float) : fmul NaN y = NaN.
Proof. reflexivity. Qed.

Lemma fsub_NaN_l (y : float) : fsub NaN y = NaN.
Proof. reflexivity. Qed.

(** Which of the five entries is the NaN. *)
Lemma any_nan_cases (v : vec5) :
  any_nan v = true ->
  vibration v = NaN \/ temperature v = NaN \/ pressure v = NaN \/
  flow_rate v = NaN \/ rotational_speed v = NaN.
Proof.
  unfold any_nan, to_list. cbn [existsb]. rewrite !orb_true_iff.
  intros [H | [H | [H | [H | [H | H]]]]]; try discriminate;
    apply is_nan_true in H; tauto.
Qed.

Lemma any_nan_intro (v : vec5) :
  vibration v = NaN \/ temperature v = NaN \/ pressure v = NaN \/
  flow_rate v = NaN \/ rotational_speed v = NaN ->
  any_nan v = true.
Proof.
  unfold any_nan, to_list. cbn [existsb]. rewrite !orb_true_iff.
  intros [H | [H | [H | [H | H]]]]; rewrite H; tauto.
Qed.

Lemma scale_row_nan (s : MinMaxScaler) (x : vec5) :
  any_nan x = true -> any_nan (scale_row s x) = true.
Proof.
  intros H. apply any_nan_cases in H. apply any_nan_intro.
  unfold scale_row, add, mul, map2.
  cbn [vibration temperature pressure flow_rate rotational_speed].
  destruct H as [H | [H | [H | [H | H]]]]; rewrite H; tauto.
Qed.

Lemma power2_sub_nan (u v : vec5) :
  any_nan u = true -> any_nan (power2 (sub u v)) = true.
Proof.
  intros H. apply any_nan_cases in H. apply any_nan_intro.
  unfold power2, sub, map1, map2.
  cbn [vibration temperature pressure flow_rate rotational_speed].
  destruct H as [H | [H | [H | [H | H]]]]; rewrite H; tauto.
Qed.

Lemma mean_nan (v : vec5) : any_nan v = true -> mean v = NaN.
Proof.
  intros H. apply any_nan_cases in H.
  unfold mean, Numpy.sum, to_list. cbn [fold_left].
  destruct H as [H | [H | [H | [H | H]]]]; rewrite H;
    by rewrite ?fadd_NaN_r, ?fadd_NaN_l.
Qed.

Variable float64_of_other : json -> result float.

(** The returned record, with the recommended action. *)
Lemma predict_anomaly_from_scaled (self : ModelPredictor) (d : gmap string json)
    (mt : string) (model : Keras.Model) (scaled : vec5) (ts mid : json) :
  models self !! mt = Some model ->
  preprocess_data float64_of_other self d mt = Ok scaled ->
  d !! "timestamp" = Some ts -> d !! "machineId" = Some mid ->
  let m := mean (power2 (sub scaled (Keras.predict model scaled))) in
  let p := py_min (fdiv m (fmul threshold (Fin 2))) (Fin 1) in
  predict_anomaly float64_of_other self d mt
  = Ok {| timestamp := ts; machineId := mid; machineType := mt;
          anomalyProbability := p;
          isAnomaly := fgtb m threshold;
          mse := m;
          confidence := fsub (Fin 1) p;
          recommendedAction :=
            if fgtb m threshold then "Inspect immediately" else "No action required" |}.
Proof.
  intros Hm Hp Hts Hmid. unfold predict_anomaly, getitem.
  by rewrite Hm, Hp, Hts, Hmid.
Qed.

(** Preprocessing of a reading whose five measurements are numbers. *)
Lemma preprocess_numbers (self : ModelPredictor) (d : gmap string json)
    (mt : string) (scaler : MinMaxScaler) (x1 x2 x3 x4 x5 : float) :
  scalers self !! mt = Some scaler ->
  d !! "vibration" = Some (JNum x1) ->
  d !! "temperature" = Some (JNum x2) ->
  d !! "pressure" = Some (JNum x3) ->
  d !! "flowRate" = Some (JNum x4) ->
  d !! "rotationalSpeed" = Some (JNum x5) ->
  preprocess_data float64_of_other self d mt
  = transform_row scaler (V5 x1 x2 x3 x4 x5).
Proof.
  intros Hs H1 H2 H3 H4 H5. unfold preprocess_data, getitem.
  by rewrite Hs, H1, H2, H3, H4, H5.
Qed.

(** X1. A reading with a NaN measurement (and no infinite one) is scored
    by every loaded model and scaler: [mse], [anomalyProbability] and
    [confidence] are NaN, and the reading is never flagged: [isAnomaly] is
    false and the recommended action is "No action required". *)
Theorem nan_reading_never_flagged (self : ModelPredictor) (d : gmap string json)
    (mt : string) (model : Keras.Model) (scaler : MinMaxScaler)
    (x1 x2 x3 x4 x5 : float) (ts mid : json) :
  models self !! mt = Some model ->
  scalers self !! mt = Some scaler ->
  d !! "vibration" = Some (JNum x1) ->
  d !! "temperature" = Some (JNum x2) ->
  d !! "pressure" = Some (JNum x3) ->
  d !! "flowRate" = Some (JNum x4) ->
  d !! "rotationalSpeed" = Some (JNum x5) ->
  d !! "timestamp" = Some ts ->
  d !! "machineId" = Some mid ->
  has_inf (V5 x1 x2 x3 x4 x5) = false ->
  any_nan (V5 x1 x2 x3 x4 x5) = true ->
  exists r,
    predict_anomaly float64_of_other self d mt = Ok r /\
    mse r = NaN /\ anomalyProbability r = NaN /\ confidence r = NaN /\
    isAnomaly r = false /\ recommendedAction r = "No action required".
Proof.
  intros Hm Hs H1 H2 H3 H4 H5 Hts Hmid Hinf Hnan.
  pose proof (preprocess_numbers self d mt scaler x1 x2 x3 x4 x5 Hs H1 H2 H3 H4 H5)
    as Hp.
  unfold transform_row in Hp. rewrite Hinf in Hp.
  rewrite (predict_anomaly_from_scaled self d mt model _ ts mid Hm Hp Hts Hmid).
  eexists. split; [reflexivity |]. cbn [mse anomalyProbability confidence isAnomaly
                                         recommendedAction].
  rewrite mean_nan by (apply power2_sub_nan, scale_row_nan, Hnan).
  by repeat split.
Qed.

(** X2. When the reconstruction of a finite scaled row equals that row in
    every dimension, the prediction has [mse] 0, probability 0 and
    confidence 1, and the reading is not flagged. *)
Theorem exact_reconstruction_scores_zero (self : ModelPredictor)
    (d : gmap string json) (mt : string) (r : PredictionResult)
    (model : Keras.Model) (s1 s2 s3 s4 s5 p1 p2 p3 p4 p5 : Q) :
  predict_anomaly float64_of_other self d mt = Ok r ->
  models self !! mt = Some model ->
  preprocess_data float64_of_other self d mt = Ok (fin5 s1 s2 s3 s4 s5) ->
  Keras.predict model (fin5 s1 s2 s3 s4 s5) = fin5 p1 p2 p3 p4 p5 ->
  s1 == p1 /\ s2 == p2 /\ s3 == p3 /\ s4 == p4 /\ s5 == p5 ->
  mse r = Fin 0 /\
  anomalyProbability r = Fin 0 /\ confidence r = Fin 1 /\
  isAnomaly r = false /\ recommendedAction r = "No action required".
Proof.
  intros Hr Hm Hp Hrec (E1 & E2 & E3 & E4 & E5).
  pose proof (predict_anomaly_Ok _ _ _ _ _ Hr)
    as (model' & scaled & Hm' & Hp' & _ & _ & _ & _ & _ & Hts & Hmid).
  rewrite (predict_anomaly_from_scaled self d mt model _ _ _ Hm Hp Hts Hmid) in Hr.
  injection Hr as <-. cbn [mse anomalyProbability confidence isAnomaly
                           recommendedAction].
  rewrite Hrec.
  destruct (mean_power2_sub_fin s1 s2 s3 s4 s5 p1 p2 p3 p4 p5) as (m & -> & Hspec).
  unfold mean_squared_difference in Hspec.
  cbn [combine List.map fold_right length] in Hspec.
  assert (Hzero : Qred m = 0).
  { change 0 with (Qred 0). apply Qred_complete.
    rewrite Hspec, E1, E2, E3, E4, E5. field. }
  rewrite Hzero. by vm_compute.
Qed.

End ScoringExtras.

Section ScoringExtrasScenarios.
Local Open Scope Q_scope.
Import ModelPredictor Scenarios.

(** The scenario reading with a NaN vibration, on the identity registry. *)
Lemma nan_reading_never_flagged_witness :
  exists r,
    predict_anomaly reject_other (pump_registry identity_model) nan_reading "Pump"
    = Ok r /\
    mse r = NaN /\ isAnomaly r = false /\
    recommendedAction r = "No action required".
Proof.
  destruct (nan_reading_never_flagged reject_other (pump_registry identity_model) nan_reading
              "Pump" identity_model identity_scaler
              NaN (Fin 50) (Fin 5) (Fin 20) (Fin 3000)
              (JStr "2023-01-01T00:00:00Z") (JStr "M001"))
    as (r & Hr & Hmse & _ & _ & Hflag & Hact); try (vm_compute; reflexivity).
  by exists r.
Defined.

(** The scenario reading on the identity registry: end-to-end scenario 1. *)
Lemma exact_reconstruction_scores_zero_witness :
  exists r,
    predict_anomaly reject_other (pump_registry identity_model) scenario_reading
      "Pump" = Ok r /\
    mse r = Fin 0 /\ anomalyProbability r = Fin 0 /\ confidence r = Fin 1 /\
    isAnomaly r = false.
Proof.
  destruct (predict_anomaly reject_other (pump_registry identity_model)
              scenario_reading "Pump") as [r|e] eqn:Hr;
    [| vm_compute in Hr; discriminate Hr].
  destruct (exact_reconstruction_scores_zero reject_other
              (pump_registry identity_model)
              scenario_reading "Pump" r identity_model
              1 50 5 20 3000 1 50 5 20 3000 Hr)
    as (H0 & Hp & Hc & Hflag & _); try (vm_compute; reflexivity).
  { repeat split; reflexivity. }
  by exists r.
Defined.

End ScoringExtrasScenarios.

(** ** The adapter: every outcome *)

Section AdapterExtras.
Import ModelPredictor PredictorInterface Scenarios.

Variable float64_of_other : json -> result float.
Variable json_loads : string -> result json.
Variable py_str : json -> string.
Variable predictor : ModelPredictor.

Local Abbreviation main := (main float64_of_other json_loads py_str predictor).
Local Abbreviation validate_and_predict :=
  (validate_and_predict float64_of_other py_str predictor).

(** The validation loop reports the first absent field, in the order of
    [required_fields]. *)
Lemma validate_first_missing (d : gmap string json) (fields : list string) :
  validate (JObj d) fields =
    match first_missing d fields with
    | Some field => Raise (ValueError ("Missing required field: " +:+ field))
    | None => Ok tt
    end.
Proof.
  induction fields as [|f fields IH]; [done |].
  cbn [validate contains mbind result_bind first_missing List.find].
  destruct (bool_decide (is_Some (d !! f))); cbn [negb]; [exact IH | done].
Qed.

(** A document is printed by the [try] block only for a string machine
    type for which the scoring function returned. *)
Lemma validate_and_predict_Ok (d : gmap string json) (doc : json) :
  validate_and_predict (JObj d) = Ok doc ->
  exists mt r,
    d !! "machineType" = Some (JStr mt) /\
    predict_anomaly float64_of_other predictor d mt = Ok r /\
    doc = result_json r.
Proof.
  unfold PredictorInterface.validate_and_predict.
  destruct (validate (JObj d) required_fields) as [[]|e]; [| discriminate].
  cbn [mbind result_bind]. unfold run_prediction, getitem.
  destruct (d !! "machineType") as [[| b | x | s | l | d']|];
    cbn [mbind result_bind]; try discriminate.
  destruct (predict_anomaly float64_of_other predictor d s) as [r|e] eqn:Hr;
    cbn [mbind result_bind]; [| discriminate].
  intros [= <-]. by exists s, r.
Qed.

(** A reading that is scored has the eight required fields. *)
Lemma scored_reading_validates (d : gmap string json) (mt : string)
    (r : PredictionResult) :
  d !! "machineType" = Some (JStr mt) ->
  predict_anomaly float64_of_other predictor d mt = Ok r ->
  validate (JObj d) required_fields = Ok tt.
Proof.
  intros Hmt Hr. apply validate_present. intros k Hk.
  unfold predict_anomaly, preprocess_data, getitem in Hr.
  destruct (models predictor !! mt); [| discriminate].
  destruct (scalers predictor !! mt); [| discriminate].
  destruct (d !! "vibration") eqn:H1; [| discriminate].
  destruct (d !! "temperature") eqn:H2; [| discriminate].
  destruct (d !! "pressure") eqn:H3; [| discriminate].
  destruct (d !! "flowRate") eqn:H4; [| discriminate].
  destruct (d !! "rotationalSpeed") eqn:H5; [| discriminate].
  destruct (d !! "timestamp") eqn:H6;
    [| cbn [mbind result_bind] in Hr;
       repeat (match type of Hr with
               | context [mbind _ ?m] => destruct m; cbn [mbind result_bind] in Hr
               end); discriminate].
  destruct (d !! "machineId") eqn:H7;
    [| cbn [mbind result_bind] in Hr;
       repeat (match type of Hr with
               | context [mbind _ ?m] => destruct m; cbn [mbind result_bind] in Hr
               end); discriminate].
  unfold required_fields in Hk. rewrite !elem_of_cons in Hk.
  destruct Hk as [-> | [-> | [-> | [-> | [-> | [-> | [-> | [-> | Hk]]]]]]]];
    eauto. by apply elem_of_nil in Hk.
Qed.

(** X3. Every run of the adapter ends in one of three ways: (a) exit
    status 0 with exactly one printed document, the result of the scoring
    function for the decoded object and its string machine type; (b) exit
    status 1 with exactly one printed document, the error document of a
    failure that occurred after the input was decoded to an object; (c) exit
    status 1 with nothing printed and an uncaught exception, which happens
    exactly when the input is empty, is rejected by the decoder, or decodes
    to a value that is not an object. *)
Theorem adapter_outcomes (input_data : string) :
  let p := main input_data in
  (exit_code p = 0%Z /\ uncaught p = None /\
   exists d mt r,
     json_loads input_data = Ok (JObj d) /\
     d !! "machineType" = Some (JStr mt) /\
     predict_anomaly float64_of_other predictor d mt = Ok r /\
     stdout p = [result_json r]) \/
  (exit_code p = 1%Z /\ uncaught p = None /\
   exists d e,
     json_loads input_data = Ok (JObj d) /\
     validate_and_predict (JObj d) = Raise e /\
     stdout p = [error_result e d]) \/
  (exit_code p = 1%Z /\ stdout p = [] /\ is_Some (uncaught p) /\
   (input_data = "" \/
    (exists e, json_loads input_data = Raise e) \/
    (exists v, json_loads input_data = Ok v /\ forall d, v <> JObj d))).
Proof.
  cbn zeta.
  destruct (String.eqb_spec input_data "") as [-> | Hne].
  { right; right. rewrite main_empty_input. repeat split; eauto. }
  apply String.eqb_neq in Hne.
  destruct (json_loads input_data) as [v|e] eqn:Hdec.
  2: { right; right. rewrite (main_undecodable _ _ _ _ _ e Hne Hdec).
       repeat split; eauto. }
  destruct v as [| b | x | s | l | d].
  6: { destruct (validate_and_predict (JObj d)) as [doc|e] eqn:Hv.
       - left. apply validate_and_predict_Ok in Hv as Hv'.
         destruct Hv' as (mt & r & Hmt & Hr & ->).
         unfold PredictorInterface.main, try_block. rewrite Hne, Hdec, Hv.
         repeat split. by exists d, mt, r.
       - right; left.
         rewrite (main_object_failure _ _ _ _ _ d e Hne Hdec Hv).
         repeat split. by exists d, e. }
  all: right; right;
    rewrite (main_not_an_object _ _ _ _ _ _ Hne Hdec) by (intros d; discriminate);
    repeat split; eauto 10.
Qed.

(** X4. When the input decodes to an object whose machine type is a string
    for which the scoring function returns, the adapter prints that result
    and exits with status 0; the printed document echoes the request's
    timestamp, machine id and machine type. *)
Theorem adapter_prints_result (input_data : string) (d : gmap string json)
    (mt : string) (r : PredictionResult) :
  String.eqb input_data "" = false ->
  json_loads input_data = Ok (JObj d) ->
  d !! "machineType" = Some (JStr mt) ->
  predict_anomaly float64_of_other predictor d mt = Ok r ->
  main input_data = {| stdout := [result_json r]; exit_code := 0; uncaught := None |} /\
  exists doc,
    result_json r = JObj doc /\
    doc !! "timestamp" = d !! "timestamp" /\
    doc !! "machineId" = d !! "machineId" /\
    doc !! "machineType" = d !! "machineType".
Proof.
  intros Hne Hdec Hmt Hr. split.
  - unfold PredictorInterface.main, try_block. rewrite Hne, Hdec.
    unfold PredictorInterface.validate_and_predict.
    rewrite (scored_reading_validates d mt r Hmt Hr).
    cbn [mbind result_bind]. unfold run_prediction, getitem.
    rewrite Hmt. cbn [mbind result_bind]. by rewrite Hr.
  - apply predict_anomaly_Ok
      in Hr as (_ & _ & _ & _ & _ & _ & _ & _ & Htype & Hts & Hmid).
    eexists. split; [reflexivity |].
    rewrite Hts, Hmid, Hmt, <- Htype. by repeat split.
Qed.

(** X5. When the decoded object has the eight required fields but its
    machine type has no loaded model, the adapter prints the error document
    of the "No model found" [ValueError] and exits with status 1, whatever
    the measurements are. *)
Theorem adapter_unknown_machine_type (input_data : string) (d : gmap string json)
    (mt : string) :
  String.eqb input_data "" = false ->
  json_loads input_data = Ok (JObj d) ->
  first_missing d required_fields = None ->
  d !! "machineType" = Some (JStr mt) ->
  models predictor !! mt = None ->
  main input_data
  = {| stdout := [error_result
                    (ValueError ("No model found for machine type: " +:+ mt)) d];
       exit_code := 1; uncaught := None |}.
Proof.
  intros Hne Hdec Hall Hmt Hnone.
  apply main_object_failure; [done | done |].
  unfold PredictorInterface.validate_and_predict.
  rewrite validate_first_missing, Hall. cbn [mbind result_bind].
  unfold run_prediction, getitem. rewrite Hmt. cbn [mbind result_bind].
  unfold predict_anomaly. by rewrite Hnone.
Qed.

(** X6. When the decoded object lacks a required field, the adapter
    reports the first absent one in the order timestamp, vibration,
    temperature, pressure, flowRate, rotationalSpeed, machineType,
    machineId, before anything else is looked at. *)
Theorem adapter_reports_first_missing (input_data : string)
    (d : gmap string json) (field : string) :
  String.eqb input_data "" = false ->
  json_loads input_data = Ok (JObj d) ->
  first_missing d required_fields = Some field ->
  main input_data
  = {| stdout := [error_result
                    (ValueError ("Missing required field: " +:+ field)) d];
       exit_code := 1; uncaught := None |}.
Proof.
  intros Hne Hdec Hfirst.
  apply main_object_failure; [done | done |].
  unfold PredictorInterface.validate_and_predict.
  by rewrite validate_first_missing, Hfirst.
Qed.

End AdapterExtras.

Section AdapterExtrasScenarios.
Import ModelPredictor PredictorInterface Scenarios AdapterScenarios.

(** The scenario request on the identity registry. *)
Lemma adapter_prints_result_witness :
  exists r,
    main reject_other decode_scenario str_placeholder (pump_registry identity_model)
      scenario_text
    = {| stdout := [result_json r]; exit_code := 0; uncaught := None |} /\
    isAnomaly r = false.
Proof.
  destruct (predict_anomaly reject_other (pump_registry identity_model)
              scenario_reading "Pump") as [r|e] eqn:Hr;
    [| vm_compute in Hr; discriminate Hr].
  exists r. split.
  - apply (adapter_prints_result reject_other decode_scenario str_placeholder
             (pump_registry identity_model) scenario_text scenario_reading "Pump" r);
      try (vm_compute; reflexivity). exact Hr.
  - vm_compute in Hr. by injection Hr as <-.
Defined.

(** The scenario request when no model was loaded. *)
Lemma adapter_unknown_machine_type_witness :
  main reject_other decode_scenario str_placeholder empty_registry scenario_text
  = {| stdout := [error_result
                    (ValueError "No model found for machine type: Pump")
                    scenario_reading];
       exit_code := 1; uncaught := None |}.
Proof.
  apply (adapter_unknown_machine_type reject_other decode_scenario str_placeholder
           empty_registry scenario_text scenario_reading "Pump");
    vm_compute; reflexivity.
Defined.

(** The scenario request without its pressure. *)
Lemma adapter_reports_first_missing_witness :
  main reject_other decode_no_pressure str_placeholder (pump_registry identity_model)
    no_pressure_text
  = {| stdout := [error_result (ValueError "Missing required field: pressure")
                    no_pressure_reading];
       exit_code := 1; uncaught := None |}.
Proof.
  apply (adapter_reports_first_missing reject_other decode_no_pressure
           str_placeholder (pump_registry identity_model) no_pressure_text
           no_pressure_reading "pressure");
    vm_compute; reflexivity.
Defined.

End AdapterExtrasScenarios.

(** ** The registry: loading again *)

Section RegistryExtras.
Import ModelPredictor Registry.

Lemma predictor_eq (a b : ModelPredictor) :
  models a = models b -> scalers a = scalers b -> a = b.
Proof. destruct a, b; simpl; congruence. Qed.

(** X7. [load_models] never removes an entry: run on any instance, every
    machine type that had a model and a scaler still has them, and the
    entries of a machine type whose pair does not load are left as they
    were; run again on the instance it built, from the same directory, it
    changes nothing. *)
Theorem load_models_keeps_entries (fs : FileSystem) (self : ModelPredictor) :
  (forall k,
     is_Some (models self !! k) ->
     is_Some (models (load_models_from fs self) !! k)) /\
  (forall k,
     is_Some (scalers self !! k) ->
     is_Some (scalers (load_models_from fs self) !! k)) /\
  (forall k,
     pair_loads fs k = false ->
     models (load_models_from fs self) !! k = models self !! k /\
     scalers (load_models_from fs self) !! k = scalers self !! k) /\
  load_models_from fs (init fs) = init fs.
Proof.
  unfold load_models_from. repeat split.
  - intros k Hk. rewrite load_fold_models.
    destruct (bool_decide (k ∈ machine_types)); cbn [andb]; [| done].
    destruct (pair_loads fs k) eqn:Hl; [| done].
    apply pair_loads_true in Hl as (_ & _ & [m ->] & _). eauto.
  - intros k Hk. rewrite load_fold_scalers.
    destruct (bool_decide (k ∈ machine_types)); cbn [andb]; [| done].
    destruct (pair_loads fs k) eqn:Hl; [| done].
    apply pair_loads_true in Hl as (_ & _ & _ & [s ->]). eauto.
  - rewrite load_fold_models, H. by rewrite andb_false_r.
  - rewrite load_fold_scalers, H. by rewrite andb_false_r.
  - apply predictor_eq; apply map_eq; intros k.
    + rewrite load_fold_models, init_models.
      destruct (decide (k ∈ machine_types)) as [Hin | Hnin].
      * rewrite (bool_decide_eq_true_2 (k ∈ machine_types)) by done. cbn [andb].
        destruct (pair_loads fs k) eqn:Hl; [| done].
        rewrite bool_decide_eq_true_2; [done | by apply elem_of_loadable].
      * by rewrite (bool_decide_eq_false_2 (k ∈ machine_types)) by done.
    + rewrite load_fold_scalers, init_scalers.
      destruct (decide (k ∈ machine_types)) as [Hin | Hnin].
      * rewrite (bool_decide_eq_true_2 (k ∈ machine_types)) by done. cbn [andb].
        destruct (pair_loads fs k) eqn:Hl; [| done].
        rewrite bool_decide_eq_true_2; [done | by apply elem_of_loadable].
      * by rewrite (bool_decide_eq_false_2 (k ∈ machine_types)) by done.
Qed.

End RegistryExtras.

Section RegistryExtrasScenarios.
Import ModelPredictor Registry Scenarios.

(** In the partial-load scenario a pump entry put in by hand survives a
    load from a directory without valve files, and ["Valve"] stays absent. *)
Lemma load_models_keeps_entries_witness :
  is_Some (models (load_models_from three_of_four (pump_registry (offset_model 1)))
             !! "Pump") /\
  models (load_models_from three_of_four (pump_registry (offset_model 1))) !! "Valve"
  = None.
Proof.
  destruct (load_models_keeps_entries three_of_four (pump_registry (offset_model 1)))
    as (Hkeep & _ & Hsame & _).
  split.
  - apply Hkeep. by eexists.
  - destruct (Hsame "Valve") as [-> _]; vm_compute; reflexivity.
Defined.

End RegistryExtrasScenarios.

(** ** Training: the prepared array, the outcomes, the split *)

Section PrepareExtras.
Import TrainModel Chronology.

Lemma proj_map2 (f : float -> float -> float) (proj : vec5 -> float) (u v : vec5) :
  In proj columns -> proj (map2 f u v) = f (proj u) (proj v).
Proof.
  unfold columns. simpl.
  intros [<- | [<- | [<- | [<- | [<- | []]]]]]; reflexivity.
Qed.

Lemma scale_row_keeps_nan (s : MinMaxScaler) (v : vec5) (proj : vec5 -> float) :
  In proj columns -> proj v = NaN -> proj (scale_row s v) = NaN.
Proof.
  intros Hproj Hv. unfold scale_row, add, mul.
  rewrite !proj_map2 by done. by rewrite Hv.
Qed.

Lemma prepare_data_cases (df : list Row) :
  df <> [] ->
  (existsb has_inf (List.map features df) = true /\
   exists e, prepare_data df = Raise e) \/
  (existsb has_inf (List.map features df) = false /\
   exists X s, prepare_data df = Ok (X, X, s) /\ length X = length df).
Proof.
  intros Hne. unfold prepare_data, fit_transform, fit, transform, check_array.
  destruct (existsb has_inf (List.map features df)) eqn:Hinf.
  - left. split; [done |]. eexists. reflexivity.
  - right. split; [done |].
    destruct (List.map features df) as [|v vs] eqn:Hmap.
    { destruct df; [done | discriminate]. }
    cbn [mbind result_bind].
    eexists _, _. split; [reflexivity |].
    by rewrite length_map, <- Hmap, length_map.
Qed.

(** X8. [prepare_data] raises exactly when the data frame is empty or one
    of its features is infinite (NaN is accepted).  Whenever it returns, the
    feature array and the target array are the same array, it has one row
    per row of the data frame, in the same order, each row being the fitted
    scaler's transform of that row's features, and a NaN feature stays
    NaN. *)
Theorem prepare_data_outcome (df : list Row) :
  ((exists e, prepare_data df = Raise e) <->
   df = [] \/ existsb has_inf (List.map features df) = true) /\
  (forall X y s,
     prepare_data df = Ok (X, y, s) ->
     y = X /\
     length X = length df /\
     X = List.map (fun row => scale_row s (features row)) df /\
     fit (List.map features df) = Ok s /\
     forall row proj,
       In row df -> In proj columns ->
       proj (features row) = NaN -> proj (scale_row s (features row)) = NaN).
Proof.
  split.
  - destruct df as [|row df'].
    { split; [by left | intros _; eexists; reflexivity]. }
    destruct (prepare_data_cases (row :: df'))
      as [(Hinf & e & Hp) | (Hinf & X & s & Hp & _)]; [done | |].
    + split; [by right | by eauto].
    + split; [rewrite Hp; by intros [e [=]] |].
      intros [[=] | Hinf']. congruence.
  - intros X y s Hp. apply prepare_data_Ok in Hp as (Hfit & -> & ->).
    split; [done |]. split; [by rewrite !length_map |].
    split; [by rewrite List.map_map |]. split; [done |].
    intros row proj _ Hproj Hnan. by apply scale_row_keeps_nan.
Qed.

End PrepareExtras.

Section TrainingExtras.
Import TrainModel Chronology.

Variable keras_fit :
  list vec5 -> list vec5 -> list vec5 -> list vec5 -> result Keras.Model.
Variable keras_evaluate : Keras.Model -> list vec5 -> list vec5 -> float.

Local Abbreviation train := (train_model_for_machine_type keras_fit keras_evaluate).

(** X9. [train_model_for_machine_type] returns its "Not enough data" [None]
    exactly when the database gave no data frame or one with fewer than 100
    rows: the second guard, on fewer than 10 prepared rows, never decides,
    because the prepared array has as many rows as the data frame. *)
Theorem train_none_iff_too_few (db : option (list SensorData)) (mt : string) :
  train db mt = Ok None <->
  load_data_from_db db mt default_limit = None \/
  exists df,
    load_data_from_db db mt default_limit = Some df /\ (length df < 100)%nat.
Proof.
  split.
  - unfold train_model_for_machine_type.
    destruct (load_data_from_db db mt default_limit) as [df|]; [| by left].
    destruct (Nat.ltb_spec (length df) 100) as [Hlt | Hge]; [right; by exists df |].
    intros Ht. exfalso.
    destruct (prepare_data_cases df) as [(_ & e & Hp) | (_ & X & s & Hp & Hlen)].
    + intros ->. simpl in Hge. lia.
    + by rewrite Hp in Ht.
    + rewrite Hp in Ht. cbn [mbind result_bind] in Ht.
      unfold train_prepared in Ht.
      destruct (Nat.ltb_spec (length X) 10); [lia |].
      destruct (keras_fit _ _ _ _); discriminate.
  - intros [Hnone | (df & Hload & Hlen)].
    + unfold train_model_for_machine_type. by rewrite Hnone.
    + by eapply train_too_few.
Qed.


Lemma StronglySorted_app_order {A : Type} (R : A -> A -> Prop) (l1 l2 : list A) :
  StronglySorted R (l1 ++ l2) ->
  forall a b, In a l1 -> In b l2 -> R a b.
Proof.
  induction l1 as [|x l1 IH]; intros H a b Ha Hb; [destruct Ha |].
  simpl in H. apply StronglySorted_inv in H as [Hs Hx].
  destruct Ha as [<- | Ha]; [| by apply IH].
  eapply List.Forall_forall in Hx; [exact Hx |].
  apply in_app_iff. by right.
Qed.

(** X11. Whenever a machine type is trained, the data frame has between
    100 and [default_limit] (10000) rows, the training part has at least 80 of them and the
    validation part at least 20, and no validation row is earlier than a
    training row. *)
Theorem train_split_sizes_and_order (db : option (list SensorData)) (mt : string)
    (r : TrainResult) :
  train db mt = Ok (Some r) ->
  exists df,
    load_data_from_db db mt default_limit = Some df /\
    (100 <= length df <= default_limit)%nat /\
    (80 <= length (take (split_idx (length df)) df))%nat /\
    (20 <= length (drop (split_idx (length df)) df))%nat /\
    forall a b,
      In a (take (split_idx (length df)) df) ->
      In b (drop (split_idx (length df)) df) ->
      (timestamp a <= timestamp b)%Z.
Proof.
  intros Ht. apply train_Ok in Ht as (df & X & Hload & Hlen & _).
  exists df. split; [done |].
  assert (Hk : split_idx (length df) = (4 * length df / 5)%nat)
    by apply split_idx_floor.
  assert (Hmul : (5 * (4 * length df / 5) <= 4 * length df)%nat)
    by (apply Nat.Div0.mul_div_le).
  assert (Hlow : (80 <= 4 * length df / 5)%nat)
    by (apply Nat.div_le_lower_bound; lia).
  split; [split; [done |] |].
  - destruct db as [table|]; [| discriminate]. injection Hload as <-.
    unfold sort_values. rewrite <- (Permutation_length (ByTimestamp.Permuted_sort _)).
    unfold query. rewrite length_take. lia.
  - rewrite length_take, length_drop, Hk.
    split; [lia |]. split; [lia |].
    intros a b Ha Hb.
    assert (Hasc : ascending df).
    { destruct db as [table|]; [| discriminate]. injection Hload as <-.
      apply sort_values_ascending. }
    unfold ascending in Hasc.
    rewrite <- (take_drop (4 * length df / 5) df) in Hasc.
    by apply (StronglySorted_app_order _ _ _ Hasc).
Qed.

(** X12. [load_data_from_db] keeps the most recent rows of the machine
    type: the data frame has [min(limit, count)] rows, it is sorted by time,
    and together with the rows left out it is a rearrangement of all rows of
    that type, none of the rows left out being later than a row kept. *)
Theorem load_keeps_most_recent (table : list SensorData) (mt : string)
    (limit : nat) (df : list Row) :
  load_data_from_db (Some table) mt limit = Some df ->
  length df = Nat.min limit (length (rows_of table mt)) /\
  ascending df /\
  exists left_out,
    df ++ left_out ≡ₚ rows_of table mt /\
    forall a b, In a df -> In b left_out -> (timestamp b <= timestamp a)%Z.
Proof.
  intros [= <-].
  pose (all := order_by_timestamp_desc (rows_of table mt)).
  assert (Hq : query table mt limit = take limit all) by reflexivity.
  assert (Hperm : sort_values (query table mt limit) ≡ₚ take limit all)
    by (rewrite Hq; apply sort_values_permutation).
  split; [| split; [apply sort_values_ascending |]].
  - rewrite (Permutation_length Hperm), length_take.
    unfold all. by rewrite (Permutation_length (order_by_timestamp_desc_permutation _)).
  - exists (drop limit all). split.
    + rewrite Hperm, take_drop. apply order_by_timestamp_desc_permutation.
    + intros a b Ha Hb.
      assert (Ha' : In a (take limit all)).
      { eapply Permutation_in; [exact Hperm | exact Ha]. }
      pose proof (order_by_timestamp_desc_descending (rows_of table mt)) as Hdesc.
      fold all in Hdesc. unfold descending in Hdesc.
      rewrite <- (take_drop limit all) in Hdesc.
      by apply (StronglySorted_app_order _ _ _ Hdesc a b).
Qed.

(** X13. [main] trains nothing outside the four machine types, and when
    the database cannot be reached it completes with no trained model. *)
Theorem main_trains_only_known_types (db : option (list SensorData)) :
  (forall mt, mt ∉ machine_types -> main keras_fit keras_evaluate db !! mt = None) /\
  main keras_fit keras_evaluate None = ∅.
Proof.
  split.
  - intros mt Hmt. unfold main. rewrite main_fold_lookup.
    by rewrite bool_decide_eq_false_2.
  - apply map_eq. intros k. unfold main. rewrite main_fold_lookup.
    by case_bool_decide.
Qed.

End TrainingExtras.

(** ** From training to inference *)

Section TrainToPredict.
Import Registry.

Variable keras_fit :
  list vec5 -> list vec5 -> list vec5 -> list vec5 -> result Keras.Model.
Variable keras_evaluate : Keras.Model -> list vec5 -> list vec5 -> float.
Variable float64_of_other : json -> result float.

Lemma train_filenames (db : option (list TrainModel.SensorData)) (mt : string)
    (r : TrainModel.TrainResult) :
  TrainModel.train_model_for_machine_type keras_fit keras_evaluate db mt = Ok (Some r) ->
  TrainModel.model_filename r = lower mt +:+ "_model.h5" /\
  TrainModel.scaler_filename r = lower mt +:+ "_scaler.pkl".
Proof.
  unfold TrainModel.train_model_for_machine_type.
  destruct (TrainModel.load_data_from_db db mt TrainModel.default_limit) as [df|];
    [| discriminate].
  destruct (length df <? 100)%nat; [discriminate |].
  destruct (TrainModel.prepare_data df) as [[[X y] s]|e]; [| discriminate].
  cbn [mbind result_bind]. unfold TrainModel.train_prepared.
  destruct (length X <? 10)%nat; [discriminate |].
  destruct (keras_fit _ _ _ _) as [m|e]; [| discriminate].
  cbn [mbind result_bind]. by intros [= <-].
Qed.

Lemma fitted_row_no_inf (X : list vec5) (s : MinMaxScaler) (v : vec5) :
  fit X = Ok s -> In v X -> has_inf v = false.
Proof.
  intros Hfit Hv. apply fit_Ok in Hfit as (_ & Hinf & _).
  destruct (has_inf v) eqn:E; [| done].
  assert (existsb has_inf X = true); [| congruence].
  apply existsb_exists. by exists v.
Qed.

(** X14. The files the trainer writes are the files the predictor looks
    for under ["../ml-models/"]; and when the predictor has loaded the model
    and the scaler of a training run, a reading that carries the five
    measurements of a row of the training data is normalised to exactly
    the scaled row the model was trained or validated on. *)
Theorem inference_scaling_matches_training (table : list TrainModel.SensorData)
    (mt : string) (r : TrainModel.TrainResult) (fs : ModelPredictor.FileSystem) :
  TrainModel.train_model_for_machine_type keras_fit keras_evaluate (Some table) mt
  = Ok (Some r) ->
  mt ∈ ModelPredictor.machine_types ->
  ModelPredictor.path_exists fs (ModelPredictor.model_filename mt) = true ->
  ModelPredictor.path_exists fs (ModelPredictor.scaler_filename mt) = true ->
  ModelPredictor.load_model fs (ModelPredictor.model_filename mt)
  = Ok (TrainModel.model r) ->
  ModelPredictor.joblib_load fs (ModelPredictor.scaler_filename mt)
  = Ok (TrainModel.scaler r) ->
  ModelPredictor.model_filename mt = "../ml-models/" +:+ TrainModel.model_filename r /\
  ModelPredictor.scaler_filename mt = "../ml-models/" +:+ TrainModel.scaler_filename r /\
  exists df X,
    TrainModel.load_data_from_db (Some table) mt TrainModel.default_limit = Some df /\
    X = List.map (fun row => scale_row (TrainModel.scaler r) (TrainModel.features row)) df /\
    keras_fit (take (TrainModel.split_idx (length X)) X)
              (take (TrainModel.split_idx (length X)) X)
              (drop (TrainModel.split_idx (length X)) X)
              (drop (TrainModel.split_idx (length X)) X)
    = Ok (TrainModel.model r) /\
    forall row d,
      In row df ->
      d !! "vibration" = Some (JNum (vibration (TrainModel.features row))) ->
      d !! "temperature" = Some (JNum (temperature (TrainModel.features row))) ->
      d !! "pressure" = Some (JNum (pressure (TrainModel.features row))) ->
      d !! "flowRate" = Some (JNum (flow_rate (TrainModel.features row))) ->
      d !! "rotationalSpeed" = Some (JNum (rotational_speed (TrainModel.features row))) ->
      ModelPredictor.preprocess_data float64_of_other (ModelPredictor.init fs) d mt
      = Ok (scale_row (TrainModel.scaler r) (TrainModel.features row)) /\
      In (scale_row (TrainModel.scaler r) (TrainModel.features row)) X.
Proof.
  intros Ht Hmt Hem Hes Hlm Hls.
  destruct (train_filenames _ _ _ Ht) as [-> ->].
  split; [reflexivity |]. split; [reflexivity |].
  apply train_Ok in Ht as (df & X & Hload & _ & Hfit & HX & Hk).
  exists df, X. split; [done |].
  split; [by rewrite HX, List.map_map |]. split; [done |].
  intros row d Hrow H1 H2 H3 H4 H5. split.
  - assert (Hs : ModelPredictor.scalers (ModelPredictor.init fs) !! mt
                 = Some (TrainModel.scaler r)).
    { rewrite init_scalers, bool_decide_eq_true_2, Hls; [done |].
      apply elem_of_loadable. split; [done |].
      apply pair_loads_true. eauto 10. }
    rewrite (preprocess_numbers float64_of_other _ d mt _ _ _ _ _ _ Hs H1 H2 H3 H4 H5).
    rewrite <- vec5_eta. unfold transform_row.
    rewrite (fitted_row_no_inf _ _ _ Hfit); [done |]. by apply in_map.
  - rewrite HX, List.map_map. apply in_map_iff. by exists row.
Qed.

End TrainToPredict.

(** ** Persistence *)

Section PersistenceExtras.
Import ModelPredictor PredictorInterface Persistence.


(** X16. A record without one of the nine keys the INSERT reads is never
    stored, whatever the database does.  In particular a request that passes
    the adapter's validation but carries no ["role"] is not stored. *)
Theorem save_sensor_data_needs_all_keys (pg : Postgres) (data : gmap string json)
    (k : string) :
  k ∈ required_fields ++ ["role"] ->
  data !! k = None ->
  save_sensor_data_to_db pg data = not_saved.
Proof.
  intros Hk Hnone. unfold save_sensor_data_to_db.
  destruct (connect_to_db pg); [| done].
  assert (Hp : exists e, sensor_params data = Raise e).
  { unfold sensor_params, getitem, required_fields in *. cbn [app] in Hk.
    rewrite !elem_of_cons in Hk.
    destruct Hk as [-> | [-> | [-> | [-> | [-> | [-> | [-> | [-> | [-> | Hk]]]]]]]]];
      [.. | by apply elem_of_nil in Hk];
      repeat (match goal with
              | |- context [data !! ?key] =>
                  lazymatch goal with
                  | H : data !! key = _ |- _ => rewrite H
                  | _ => destruct (data !! key) eqn:?
                  end
              end; cbn [mbind result_bind]); eauto. }
  destruct Hp as [e Hp]. unfold insert_and_commit. by rewrite Hp.
Qed.

(** X17. In a process that imports the module (as the adapter does),
    [json] is not a global name of the module: [save_prediction_to_db]
    never stores a prediction and returns [False], for every database and
    every prediction. *)
Theorem save_prediction_never_stores_when_imported (json_dumps : json -> string)
    (pg : Postgres) (prediction : gmap string json) :
  save_prediction_to_db false json_dumps pg prediction = not_saved.
Proof.
  unfold save_prediction_to_db, insert_and_commit, prediction_params, getitem.
  destruct (connect_to_db pg); [| done].
  repeat (match goal with
          | |- context [prediction !! ?key] => destruct (prediction !! key)
          end; cbn [mbind result_bind]); done.
Qed.

(** X18. When the module runs as a script and the database accepts the
    INSERT and the commit, every result returned by [predict_anomaly] can
    be stored: the dict has the six keys [save_prediction_to_db] reads, and
    the stored row holds the echoed timestamp and machine id, the machine
    type, the probability, the flag and the serialised details. *)
Theorem save_prediction_stores_results (float64_of_other : json -> result float)
    (json_dumps : json -> string) (pg : Postgres)
    (self : ModelPredictor) (d : gmap string json) (mt : string)
    (r : PredictionResult) :
  predict_anomaly float64_of_other self d mt = Ok r ->
  pg_connect pg = None ->
  (forall row, pg_execute pg "prediction_results" row = None) ->
  pg_commit pg = None ->
  result_json r = JObj (result_dict r) /\
  exists details,
    result_dict r !! "predictionDetails" = Some details /\
    save_prediction_to_db true json_dumps pg (result_dict r)
    = {| returned := true;
         sensor_data := [];
         prediction_results :=
           [[timestamp r; machineId r; JStr mt; JNum (anomalyProbability r);
             JBool (isAnomaly r); JStr (json_dumps details)]] |}.
Proof.
  intros Hr Hc He Hcommit. split; [reflexivity |].
  apply predict_anomaly_Ok in Hr as (_ & _ & _ & _ & _ & _ & _ & _ & <- & _).
  eexists. split; [reflexivity |].
  unfold save_prediction_to_db, connect_to_db, insert_and_commit. rewrite Hc.
  change (prediction_params true json_dumps (result_dict r))
    with (Ok [timestamp r; machineId r; JStr (machineType r);
              JNum (anomalyProbability r); JBool (isAnomaly r);
              JStr (json_dumps (JObj (list_to_map
                [("confidence", JNum (confidence r));
                 ("recommendedAction", JStr (recommendedAction r))])))]).
  cbn [mbind result_bind]. by rewrite He, Hcommit.
Qed.

End PersistenceExtras.

(** ** The further properties on the scenario data *)

Section ExtrasScenarios.
Local Open Scope Q_scope.
Import TrainModel Chronology TrainingScenarios Scenarios AdapterScenarios Persistence.

(** The pump rows of [table_A]: the prepared array has 100 rows. *)
Lemma prepare_data_outcome_witness :
  exists df X s,
    load_data_from_db (Some table_A) "Pump" default_limit = Some df /\
    prepare_data df = Ok (X, X, s) /\
    length X = 100%nat.
Proof.
  destruct (load_data_from_db (Some table_A) "Pump" default_limit) as [df|] eqn:Hload;
    [| discriminate Hload].
  destruct (prepare_data df) as [[[X y] s]|e] eqn:Hp.
  - destruct (prepare_data_outcome df) as [_ Hok].
    destruct (Hok X y s Hp) as (-> & Hlen & _).
    exists df, X, s. split; [reflexivity |]. split; [exact Hp |].
    rewrite Hlen. vm_compute in Hload. by injection Hload as <-.
  - exfalso. vm_compute in Hload. injection Hload as <-.
    vm_compute in Hp. discriminate Hp.
Defined.

(** ["Motor"] has three rows in [table_mixed]. *)
Lemma train_none_iff_too_few_witness :
  train_model_for_machine_type trivial_fit trivial_evaluate (Some table_mixed) "Motor"
  = Ok None.
Proof.
  apply (train_none_iff_too_few trivial_fit trivial_evaluate).
  right. eexists. split; [reflexivity |]. vm_compute. lia.
Defined.


(** The pump rows of [table_A]: 80 training rows, 20 validation rows. *)
Lemma train_split_sizes_and_order_witness :
  exists r df,
    train_model_for_machine_type trivial_fit trivial_evaluate (Some table_A) "Pump"
    = Ok (Some r) /\
    load_data_from_db (Some table_A) "Pump" default_limit = Some df /\
    (80 <= length (take (split_idx (length df)) df))%nat /\
    (20 <= length (drop (split_idx (length df)) df))%nat.
Proof.
  destruct (train_model_for_machine_type trivial_fit trivial_evaluate
              (Some table_A) "Pump") as [[r|]|e] eqn:Ht;
    [| vm_compute in Ht; discriminate Ht | vm_compute in Ht; discriminate Ht].
  destruct (train_split_sizes_and_order trivial_fit trivial_evaluate
              (Some table_A) "Pump" r Ht) as (df & Hload & _ & Htrain & Hval & _).
  by exists r, df.
Defined.

(** The five most recent pump rows of [table_A]. *)
Lemma load_keeps_most_recent_witness :
  exists df,
    load_data_from_db (Some table_A) "Pump" 5 = Some df /\
    length df = 5%nat /\
    List.map timestamp df = [95; 96; 97; 98; 99]%Z.
Proof.
  destruct (load_data_from_db (Some table_A) "Pump" 5) as [df|] eqn:Hload;
    [| discriminate Hload].
  destruct (load_keeps_most_recent table_A "Pump" 5 df Hload) as (Hlen & _).
  exists df. split; [reflexivity |]. split.
  - rewrite Hlen. vm_compute. reflexivity.
  - vm_compute in Hload. by injection Hload as <-.
Defined.

(** No entry for a name outside the four machine types. *)
Lemma main_trains_only_known_types_witness :
  main trivial_fit trivial_evaluate (Some table_A) !! "Turbine" = None.
Proof.
  apply (main_trains_only_known_types trivial_fit trivial_evaluate (Some table_A)).
  unfold machine_types. rewrite !elem_of_cons.
  intros [H | [H | [H | [H | H]]]]; try discriminate H. by apply elem_of_nil in H.
Defined.

(** Training on [table_A], then serving from a directory that holds the
    trained pair: the first row is normalised as in training. *)
Lemma inference_scaling_matches_training_witness :
  exists r,
    train_model_for_machine_type trivial_fit trivial_evaluate (Some table_A) "Pump"
    = Ok (Some r) /\
    ModelPredictor.model_filename "Pump" = "../ml-models/" +:+ model_filename r /\
    model_filename r = "pump_model.h5".
Proof.
  destruct (train_model_for_machine_type trivial_fit trivial_evaluate
              (Some table_A) "Pump") as [[r|]|e] eqn:Ht;
    [| vm_compute in Ht; discriminate Ht | vm_compute in Ht; discriminate Ht].
  destruct (inference_scaling_matches_training trivial_fit trivial_evaluate
              reject_other table_A "Pump" r three_of_four Ht)
    as (Hname & _);
    try (apply list_elem_of_here);
    try (vm_compute in Ht; injection Ht as <-; vm_compute; reflexivity).
  exists r. split; [reflexivity |]. split; [exact Hname |].
  vm_compute in Ht. by injection Ht as <-.
Defined.


(** The scenario reading passes the adapter's validation and has no role. *)
Lemma save_sensor_data_needs_all_keys_witness :
  first_missing scenario_reading PredictorInterface.required_fields = None /\
  save_sensor_data_to_db accepting scenario_reading = not_saved.
Proof.
  split; [vm_compute; reflexivity |].
  apply (save_sensor_data_needs_all_keys accepting scenario_reading "role");
    [| vm_compute; reflexivity].
  apply elem_of_app. right. apply list_elem_of_here.
Defined.

(** The scenario prediction, stored by an accepting database. *)
Lemma save_prediction_stores_results_witness :
  exists r,
    ModelPredictor.predict_anomaly reject_other (pump_registry identity_model)
      scenario_reading "Pump" = Ok r /\
    returned (save_prediction_to_db true (fun _ => "details") accepting (result_dict r))
    = true.
Proof.
  destruct (ModelPredictor.predict_anomaly reject_other (pump_registry identity_model)
              scenario_reading "Pump") as [r|e] eqn:Hr;
    [| vm_compute in Hr; discriminate Hr].
  exists r. split; [reflexivity |].
  destruct (save_prediction_stores_results reject_other (fun _ => "details")
              accepting (pump_registry identity_model) scenario_reading "Pump" r Hr)
    as (_ & details & _ & ->); reflexivity.
Defined.

End ExtrasScenarios.
